(** * Dropdown: a shallow embedding of [src/Dropdown.js]

    The React class [Dropdown] is embedded as a record of instance fields
    ([this.props], [this.state], [this._focusInDropdown], [this.menu],
    [this.toggle]) threaded through a small monad that also records the
    calls the component makes on the outside world (focus, preventDefault,
    onToggle, the popper) and the JavaScript exceptions it raises.

    The browser and the [dom-helpers] functions are not part of the
    repository: they are an interface ([Dom]) every method receives, with
    one concrete implementation over a tree of nodes ([TreeDom]). *)

From Stdlib Require Import ZArith List String Ascii Bool Lia.
Import ListNotations.

Open Scope string_scope.
Open Scope list_scope.

(** ** JavaScript strings and the regular expression of [handleKeyDown] *)

Module Js.

(** ASCII case folding: the only folding [/.../i] performs on a pattern
    made of ASCII letters. *)
Definition lowerAscii (c : ascii) : ascii :=
  let n := nat_of_ascii c in
  if andb (Nat.leb 65 n) (Nat.leb n 90) then ascii_of_nat (n + 32) else c.

Fixpoint toLower (s : string) : string :=
  match s with
  | EmptyString => EmptyString
  | String c r => String (lowerAscii c) (toLower r)
  end.

(** [s] has an occurrence of [pat]. *)
Definition includes (pat s : string) : bool :=
  match String.index 0 pat s with
  | Some _ => true
  | None => false
  end.

(** [/input|textarea/i.test(tagName)]: an unanchored, case-insensitive
    search for either alternative. *)
Definition test_input_textarea (tagName : string) : bool :=
  includes "input" (toLower tagName) || includes "textarea" (toLower tagName).

End Js.

(** ** The DOM as the component sees it *)

(** A DOM node is known by its identity ([===] on objects). *)
Definition Elem := nat.

(** What the component asks of the browser and of [dom-helpers]. *)
Record Dom := {
  tagName : Elem -> string;              (* el.tagName *)
  hasFocusMethod : Elem -> bool;         (* truthiness of el.focus *)
  contains : Elem -> option Elem -> bool;(* el.contains(other), other may be null *)
  matches : Elem -> string -> bool;      (* matches(el, selector) *)
  qsa : Elem -> string -> list Elem;     (* qsa(el, selector), document order *)
  activeElement : option Elem            (* document.activeElement *)
}.

(** The value of [items[index]] or of an early [return null]. *)
Inductive MaybeElem :=
| JNull
| JUndefined
| JElem (e : Elem).

(** A keyboard or mouse event: the two fields the component reads, and a
    stamp that tells two events apart. *)
Record Event := {
  key : string;
  target : Elem;
  stamp : nat
}.

(** ** Props and state *)

(** [show] and [alignRight] are used for their truthiness only; [drop] is
    compared with [===] against string literals, [None] is [undefined]. *)
Record Props := {
  drop : option string;
  itemSelector : string;
  alignRight : bool;
  show : bool;
  flip : bool
}.

(** The bundle the positioner hands to [handleUpdate]; opaque here. *)
Definition PopperResult := nat.

(** [state.dropdownContext]; the handlers it carries are the methods
    below.  An absent [popper] stands for the empty object. *)
Record DropdownContext := {
  ctx_popper : option PopperResult;
  ctx_toggleId : option string;
  ctx_alignRight : bool;
  ctx_show : bool
}.

Record CompState := {
  placement : option string;
  lastShow : bool;
  dropdownContext : DropdownContext;
  popper : option PopperResult
}.

(** The fields of a [Dropdown] instance.  [menu] and [toggle] are [None]
    while they are [undefined] (never registered) or [null]. *)
Record Instance := {
  props : Props;
  state : CompState;
  _focusInDropdown : bool;
  menu : option Elem;
  toggle : option Elem
}.

(** ** Calls made on the outside world *)

(** An argument of a call to [props.onToggle]. *)
Inductive Arg :=
| ABool (b : bool)
| AEvent (e : Event)
| AStr (s : string).

(** The argument of a [setState] call. *)
Inductive StateUpdate :=
| UToggleId                    (* the updater copying this.toggle.id *)
| UPopper (p : PopperResult).

Inductive Effect :=
| EPreventDefault (e : Event)                  (* event.preventDefault() *)
| EFocus (el : Elem)                           (* el.focus() *)
| EOnToggle (args : list Arg)                  (* this.props.onToggle(...args) *)
| EPopperUpdate (element tgt : Elem) (place : option string) (flipEnabled : bool)
| EPopperDestroy
| ESetState (u : StateUpdate).

Inductive Exn :=
| TypeError (what : string).

(** ** The monad of instance methods *)

Inductive Outcome (A : Type) :=
| Return (a : A) (s : Instance)
| Throw (e : Exn) (s : Instance).
Arguments Return {A} a s.
Arguments Throw {A} e s.

Definition M (A : Type) : Type := Instance -> list Effect * Outcome A.

Definition ret {A} (a : A) : M A := fun s => ([], Return a s).

Definition bind {A B} (m : M A) (f : A -> M B) : M B :=
  fun s =>
    match m s with
    | (t1, Return a s1) => let (t2, o) := f a s1 in (t1 ++ t2, o)
    | (t1, Throw e s1) => (t1, Throw e s1)
    end.

Definition throw {A} (e : Exn) : M A := fun s => ([], Throw e s).
Definition emit (e : Effect) : M unit := fun s => ([e], Return tt s).
Definition this : M Instance := fun s => ([], Return s s).
Definition assign (f : Instance -> Instance) : M unit := fun s => ([], Return tt (f s)).

Declare Scope js_scope.
Delimit Scope js_scope with js.
Notation "x <- m ;; k" := (bind m (fun x => k))
  (at level 100, m at next level, right associativity) : js_scope.
Notation "m ;; k" := (bind m (fun _ => k))
  (at level 100, right associativity) : js_scope.
Open Scope js_scope.

(** The effects and focus calls of a run. *)
Definition trace {A} (r : list Effect * Outcome A) : list Effect := fst r.

Definition isFocus (e : Effect) : bool :=
  match e with EFocus _ => true | _ => false end.

Definition focusCalls {A} (r : list Effect * Outcome A) : list Effect :=
  filter isFocus (trace r).

Definition finalState {A} (r : list Effect * Outcome A) : Instance :=
  match snd r with
  | Return _ s => s
  | Throw _ s => s
  end.

Definition returns {A} (r : list Effect * Outcome A) : bool :=
  match snd r with
  | Return _ _ => true
  | Throw _ _ => false
  end.

(** ** Arrays of elements *)

(** [items.indexOf(x)]: the first position holding [x], or -1. *)
Fixpoint indexOfFrom (items : list Elem) (x : Elem) (i : Z) : Z :=
  match items with
  | [] => (-1)%Z
  | y :: rest => if Nat.eqb y x then i else indexOfFrom rest x (i + 1)%Z
  end.

Definition indexOf (items : list Elem) (x : Elem) : Z := indexOfFrom items x 0%Z.

(** [items[i]]: [undefined] outside the array. *)
Definition item (items : list Elem) (i : Z) : MaybeElem :=
  if (i <? 0)%Z then JUndefined
  else match nth_error items (Z.to_nat i) with
       | Some e => JElem e
       | None => JUndefined
       end.

(** ** The class *)

Module Dropdown.

Definition set_props (p : Props) (s : Instance) : Instance :=
  {| props := p; state := state s; _focusInDropdown := _focusInDropdown s;
     menu := menu s; toggle := toggle s |}.

Definition set_state (c : CompState) (s : Instance) : Instance :=
  {| props := props s; state := c; _focusInDropdown := _focusInDropdown s;
     menu := menu s; toggle := toggle s |}.

Definition set_focusInDropdown (b : bool) (s : Instance) : Instance :=
  {| props := props s; state := state s; _focusInDropdown := b;
     menu := menu s; toggle := toggle s |}.

Definition set_menu (el : option Elem) (s : Instance) : Instance :=
  {| props := props s; state := state s; _focusInDropdown := _focusInDropdown s;
     menu := el; toggle := toggle s |}.

Definition set_toggle (el : option Elem) (s : Instance) : Instance :=
  {| props := props s; state := state s; _focusInDropdown := _focusInDropdown s;
     menu := menu s; toggle := el |}.

Definition set_ctx_popper (p : option PopperResult) (c : CompState) : CompState :=
  {| placement := placement c; lastShow := lastShow c;
     dropdownContext :=
       {| ctx_popper := p;
          ctx_toggleId := ctx_toggleId (dropdownContext c);
          ctx_alignRight := ctx_alignRight (dropdownContext c);
          ctx_show := ctx_show (dropdownContext c) |};
     popper := popper c |}.

(** [v === lit] for a prop that is a string or undefined. *)
Definition strictEq (v : option string) (lit : string) : bool :=
  match v with
  | Some s => String.eqb s lit
  | None => false
  end.

(** [static getDerivedStateFromProps({ drop, alignRight, show }, prevState)].
    React merges the returned object into [prevState], which keeps
    [popper]. *)
Definition getDerivedStateFromProps (p : Props) (prevState : CompState) : CompState :=
  let placement0 := if alignRight p then "bottom-end" else "bottom-start" in
  let placement1 :=
    if strictEq (drop p) "up"
    then (if alignRight p then "top-end" else "top-start")
    else placement0 in
  let placement2 := if strictEq (drop p) "right" then "right-start" else placement1 in
  let placement3 := if strictEq (drop p) "left" then "left-start" else placement2 in
  {| placement := Some placement3;
     lastShow := ctx_show (dropdownContext prevState);
     dropdownContext :=
       {| ctx_popper := ctx_popper (dropdownContext prevState);
          ctx_toggleId := ctx_toggleId (dropdownContext prevState);
          ctx_alignRight := alignRight p;
          ctx_show := show p |};
     popper := popper prevState |}.

(** [constructor(props, context)]: no [menu], no [toggle], a context
    without [show]. *)
Definition constructor (p : Props) : Instance :=
  {| props := p;
     state := {| placement := None; lastShow := false;
                 dropdownContext := {| ctx_popper := None; ctx_toggleId := None;
                                       ctx_alignRight := false; ctx_show := false |};
                 popper := None |};
     _focusInDropdown := false;
     menu := None;
     toggle := None |}.

Definition updatePosition : M unit :=
  s <- this;;
  match toggle s, menu s with
  | Some t, Some m =>
      emit (EPopperUpdate m t (placement (state s)) (flip (props s)))
  | _, _ => ret tt
  end.

(** [dropdownContext.setToggleElement]; [el] is [ReactDOM.findDOMNode(el)]. *)
Definition setToggleElement (el : option Elem) : M unit :=
  assign (set_toggle el);;
  (match el with
   | Some _ => emit (ESetState UToggleId)
   | None => ret tt
   end);;
  s <- this;;
  if show (props s) then updatePosition else ret tt.

Definition setMenuElement (el : option Elem) : M unit :=
  assign (set_menu el);;
  s <- this;;
  if show (props s) then updatePosition else ret tt.

Definition componentDidMount : M unit :=
  s <- this;;
  if show (props s) then updatePosition else ret tt.

Definition componentWillUnmount : M unit := emit EPopperDestroy.

Definition getNextFocusedChild (dom : Dom) (current : Elem) (offset : Z) : M MaybeElem :=
  s <- this;;
  match menu s with
  | None => ret JNull
  | Some m =>
      let items := qsa dom m (itemSelector (props s)) in
      let index := (indexOf items current + offset)%Z in
      let index := Z.max 0 (Z.min index (Z.of_nat (List.length items))) in
      ret (item items index)
  end.

Definition hasMenuRole (dom : Dom) : M bool :=
  s <- this;;
  match menu s with
  | None => ret false
  | Some m => ret (matches dom m "[role=menu]")
  end.

Definition focus (dom : Dom) : M unit :=
  s <- this;;
  match toggle s with
  | Some t => if hasFocusMethod dom t then emit (EFocus t) else ret tt
  | None => ret tt
  end.

(** [if (x && x.focus) x.focus()] *)
Definition focusIfAble (dom : Dom) (x : MaybeElem) : M unit :=
  match x with
  | JElem e => if hasFocusMethod dom e then emit (EFocus e) else ret tt
  | _ => ret tt
  end.

(** [qsa(this.menu, selector)], which dereferences its first argument. *)
Definition qsaMenu (dom : Dom) (selector : string) : M (list Elem) :=
  s <- this;;
  match menu s with
  | Some m => ret (qsa dom m selector)
  | None => throw (TypeError "qsa(this.menu)")
  end.

Definition maybeFocusFirst (dom : Dom) : M unit :=
  role <- hasMenuRole dom;;
  if negb role then ret tt
  else
    s <- this;;
    items <- qsaMenu dom (itemSelector (props s));;
    focusIfAble dom (item items 0).

Definition toggleOpen (event : Event) : M unit :=
  s <- this;;
  let show' := negb (show (props s)) in
  emit (EOnToggle [ABool show'; AEvent event]).

Definition handleClick (event : Event) : M unit := toggleOpen event.

(** The class body declares the members [handleClick], [handleKeyDown]
    and [handleUpdate] and no member [handleClose]: the property read
    [this.handleClose] finds nothing. *)
Definition handleClose : option (Event -> M unit) := None.

(** A call [this.name(arg)]: a TypeError when the member is undefined. *)
Definition callMember {A} (name : string) (member : option (A -> M unit)) (arg : A) : M unit :=
  match member with
  | Some f => f arg
  | None => throw (TypeError name)
  end.

(** The condition of the first [if] of [handleKeyDown], with the short
    circuits of [&&] and [||]:
    [isInput && (key === ' ' || (key !== 'Escape' && this.menu.contains(target)))]. *)
Definition inputGuard (dom : Dom) (event : Event) : M bool :=
  let isInput := Js.test_input_textarea (tagName dom (target event)) in
  if negb isInput then ret false
  else if String.eqb (key event) " " then ret true
  else if String.eqb (key event) "Escape" then ret false
  else
    s <- this;;
    match menu s with
    | Some m => ret (contains dom m (Some (target event)))
    | None => throw (TypeError "this.menu.contains")
    end.

(** The [switch (key)] of [handleKeyDown]. *)
Definition keySwitch (dom : Dom) (event : Event) : M unit :=
  if String.eqb (key event) "ArrowUp" then
    next <- getNextFocusedChild dom (target event) (-1);;
    focusIfAble dom next;;
    emit (EPreventDefault event)
  else if String.eqb (key event) "ArrowDown" then
    emit (EPreventDefault event);;
    s <- this;;
    if negb (show (props s)) then toggleOpen event
    else
      next <- getNextFocusedChild dom (target event) 1;;
      focusIfAble dom next
  else if String.eqb (key event) "Escape" || String.eqb (key event) "Tab" then
    callMember "this.handleClose" handleClose event
  else ret tt.

Definition handleKeyDown (dom : Dom) (event : Event) : M unit :=
  ignored <- inputGuard dom event;;
  if ignored then ret tt else keySwitch dom event.

Definition handleUpdate (p : PopperResult) : M unit := emit (ESetState (UPopper p)).

(** [render()]: the focus snapshot, then the context handed to the
    provider. *)
Definition render (dom : Dom) : M DropdownContext :=
  s <- this;;
  (if lastShow (state s) && negb (show (props s)) then
     match menu s with
     | Some m => assign (set_focusInDropdown (contains dom m (activeElement dom)))
     | None => throw (TypeError "this.menu.contains")
     end
   else ret tt);;
  s <- this;;
  assign (set_state (set_ctx_popper (popper (state s)) (state s)));;
  s <- this;;
  ret (dropdownContext (state s)).

Definition componentDidUpdate (dom : Dom) (prevProps : Props) : M unit :=
  s <- this;;
  let prevOpen := show prevProps in
  (if show (props s) && negb prevOpen then
     updatePosition;;
     maybeFocusFirst dom
   else ret tt);;
  if negb (show (props s)) && prevOpen then
    s <- this;;
    if _focusInDropdown s then
      assign (set_focusInDropdown false);;
      focus dom
    else ret tt
  else ret tt.

End Dropdown.

(** ** The part of React that drives the class *)

Module React.

(** A ref callback of the context, called by a sub-component during
    the commit. *)
Inductive RefCall :=
| RefMenu (el : option Elem)
| RefToggle (el : option Elem).

Definition runRef (r : RefCall) : M unit :=
  match r with
  | RefMenu el => Dropdown.setMenuElement el
  | RefToggle el => Dropdown.setToggleElement el
  end.

Fixpoint runRefs (rs : list RefCall) : M unit :=
  match rs with
  | [] => ret tt
  | r :: rest => runRef r;; runRefs rest
  end.

Definition receive (next : Props) (s : Instance) : Instance :=
  Dropdown.set_state
    (Dropdown.getDerivedStateFromProps next (state s))
    (Dropdown.set_props next s).

(** Mounting: constructor, getDerivedStateFromProps, render, the ref
    callbacks of the commit, componentDidMount. *)
Definition mount (dom : Dom) (p : Props) (refs : list RefCall)
  : list Effect * Outcome unit :=
  (assign (receive p);;
   Dropdown.render dom;;
   runRefs refs;;
   Dropdown.componentDidMount) (Dropdown.constructor p).

(** An update with new props: getDerivedStateFromProps, render, the ref
    callbacks of the commit, componentDidUpdate with the props of the
    render before.  [before] is the document while rendering, [after]
    the document once the commit has changed it. *)
Definition update (before after : Dom) (next : Props) (refs : list RefCall) : M unit :=
  s <- this;;
  let prevProps := props s in
  assign (receive next);;
  Dropdown.render before;;
  runRefs refs;;
  Dropdown.componentDidUpdate after prevProps.

End React.

(** ** A document made of a tree of nodes *)

Module TreeDom.

Record Attrs := {
  a_tag : string;
  a_role : option string;
  a_class : list string;
  a_focus : bool            (* the node has a [focus] method *)
}.

#[local] Unset Elimination Schemes.
Inductive Node :=
| MkNode (nid : Elem) (attrs : Attrs) (kids : list Node).
#[local] Set Elimination Schemes.

Definition nid (n : Node) : Elem := match n with MkNode i _ _ => i end.
Definition attrs (n : Node) : Attrs := match n with MkNode _ a _ => a end.
Definition kids (n : Node) : list Node := match n with MkNode _ _ k => k end.

(** The node and its descendants, in document order. *)
Fixpoint flatten (n : Node) : list Node :=
  match n with
  | MkNode _ _ k => n :: flat_map flatten k
  end.

Definition lookup (root : Node) (e : Elem) : option Node :=
  find (fun n => Nat.eqb (nid n) e) (flatten root).

(** The selectors of this document: [[role=v]] spelled with the value
    [menu], a class selector [.c], or a type selector. *)
Definition selects (selector : string) (n : Node) : bool :=
  if String.eqb selector "[role=menu]" then
    match a_role (attrs n) with
    | Some r => String.eqb r "menu"
    | None => false
    end
  else
    match selector with
    | String "." c => existsb (String.eqb c) (a_class (attrs n))
    | _ => String.eqb (Js.toLower selector) (Js.toLower (a_tag (attrs n)))
    end.

Definition dom (root : Node) (active : option Elem) : Dom :=
  {| tagName := fun e =>
       match lookup root e with
       | Some n => a_tag (attrs n)
       | None => ""
       end;
     hasFocusMethod := fun e =>
       match lookup root e with
       | Some n => a_focus (attrs n)
       | None => false
       end;
     contains := fun e other =>
       match other, lookup root e with
       | Some o, Some n => existsb (fun d => Nat.eqb (nid d) o) (flatten n)
       | Some o, None => Nat.eqb e o
       | None, _ => false
       end;
     matches := fun e selector =>
       match lookup root e with
       | Some n => selects selector n
       | None => false
       end;
     qsa := fun e selector =>
       match lookup root e with
       | Some n => map nid (filter (selects selector) (flat_map flatten (kids n)))
       | None => []
       end;
     activeElement := active |}.

Definition el (tag : string) (role : option string) (cls : list string) : Attrs :=
  {| a_tag := tag; a_role := role; a_class := cls; a_focus := true |}.

(** A dropdown with a button, a menu of three items and a search box,
    and an input next to it:
<<
    0 DIV
      1 BUTTON                     the toggle
      2 UL role=menu               the menu
        3 LI.item   4 LI.item   5 LI.item
        6 INPUT
      7 INPUT
      8 UL                         a panel without the role
        9 LI.item
>> *)
Definition page : Node :=
  MkNode 0 (el "DIV" None [])
    [ MkNode 1 (el "BUTTON" None []) [];
      MkNode 2 (el "UL" (Some "menu") [])
        [ MkNode 3 (el "LI" None ["item"]) [];
          MkNode 4 (el "LI" None ["item"]) [];
          MkNode 5 (el "LI" None ["item"]) [];
          MkNode 6 (el "INPUT" None []) [] ];
      MkNode 7 (el "INPUT" None []) [];
      MkNode 8 (el "UL" None [])
        [ MkNode 9 (el "LI" None ["item"]) [] ] ].

End TreeDom.

(** ** Sample instances *)

Module Sample.

Definition propsOf (d : option string) (right open : bool) : Props :=
  {| drop := d; itemSelector := ".item"; alignRight := right;
     show := open; flip := false |}.

(** The instance after it was mounted with [show = open] around the
    toggle 1 and the menu [m] of [TreeDom.page]. *)
Definition mounted (m : option Elem) (open : bool) : Instance :=
  finalState
    (React.mount (TreeDom.dom TreeDom.page None) (propsOf None false open)
       [React.RefToggle (Some 1); React.RefMenu m]).

Definition keydown (k : string) (t : Elem) : Event :=
  {| key := k; target := t; stamp := 0 |}.

(** An open instance without a menu that has received [show = false]
    and is about to render. *)
Definition closing : Instance :=
  React.receive (propsOf None false false) (mounted None true).

(** The document with the focus on [e]. *)
Definition focusOn (e : Elem) : Dom := TreeDom.dom TreeDom.page (Some e).

End Sample.

(** ** Results of the methods, for the statements below *)

(** The calls made by [if (x && x.focus) x.focus()]. *)
Definition focusTrace (dom : Dom) (x : MaybeElem) : list Effect :=
  match x with
  | JElem e => if hasFocusMethod dom e then [EFocus e] else []
  | _ => []
  end.

(** The value [getNextFocusedChild] returns in state [s]. *)
Definition nextFocused (dom : Dom) (s : Instance) (current : Elem) (offset : Z) : MaybeElem :=
  match menu s with
  | None => JNull
  | Some m =>
      let items := qsa dom m (itemSelector (props s)) in
      item items (Z.max 0 (Z.min (indexOf items current + offset)
                             (Z.of_nat (List.length items))))
  end.

(** The calls made by [maybeFocusFirst] in state [s]. *)
Definition firstFocusTrace (dom : Dom) (s : Instance) : list Effect :=
  match menu s with
  | Some m =>
      if matches dom m "[role=menu]"
      then focusTrace dom (item (qsa dom m (itemSelector (props s))) 0)
      else []
  | None => []
  end.

(** The calls made by [focus] in state [s]. *)
Definition toggleFocusTrace (dom : Dom) (s : Instance) : list Effect :=
  match toggle s with
  | Some t => if hasFocusMethod dom t then [EFocus t] else []
  | None => []
  end.

(** ** Classes of effects and states, for the statements below *)

Definition isToggleCall (e : Effect) : bool :=
  match e with EOnToggle _ => true | _ => false end.

Definition isPositioning (e : Effect) : bool :=
  match e with EPopperUpdate _ _ _ _ => true | _ => false end.

(** What a mount or an update may do: the toggle-id [setState], a
    positioner update, a [focus] call. *)
Definition isLifecycleEffect (e : Effect) : bool :=
  match e with
  | ESetState UToggleId => true
  | EPopperUpdate _ _ _ _ => true
  | EFocus _ => true
  | _ => false
  end.

(** What a keydown may do: [preventDefault], a [focus] call, a toggle
    request. *)
Definition isKeyEffect (e : Effect) : bool :=
  match e with
  | EPreventDefault _ => true
  | EFocus _ => true
  | EOnToggle _ => true
  | _ => false
  end.

(** The instance between two update cycles: the context carries the
    [show] of the props and the focus flag is down. *)
Definition settled (s : Instance) : Prop :=
  ctx_show (dropdownContext (state s)) = show (props s)
  /\ _focusInDropdown s = false.

(** * Properties *)

(** ** Placement *)

Lemma strictEq_true (v : option string) (lit : string) :
  Dropdown.strictEq v lit = true <-> v = Some lit.
Proof.
  destruct v as [d|]; simpl.
  - rewrite String.eqb_eq. split; [intros ->; reflexivity | intros [= ->]; reflexivity].
  - split; discriminate.
Qed.

Lemma strictEq_false (v : option string) (lit : string) :
  v <> Some lit -> Dropdown.strictEq v lit = false.
Proof.
  intros H. destruct (Dropdown.strictEq v lit) eqn:E; [|reflexivity].
  apply strictEq_true in E. contradiction.
Qed.

(** C3: the placement derived by [getDerivedStateFromProps] follows the
    table up/not end: top-start, up/end: top-end, right: right-start,
    left: left-start, and for down or any other direction bottom-start
    or bottom-end by [alignRight]; it depends on [drop] and [alignRight]
    alone, not on the other props or on the state before. *)
Theorem C3_placement_table :
  forall (d : option string) (sel : string) (sh fl : bool) (prev : CompState),
    let derived := fun (right : bool) (dir : option string) =>
      placement (Dropdown.getDerivedStateFromProps
                   {| drop := dir; itemSelector := sel; alignRight := right;
                      show := sh; flip := fl |} prev) in
    derived false (Some "up") = Some "top-start" /\
    derived true (Some "up") = Some "top-end" /\
    (forall right, derived right (Some "right") = Some "right-start") /\
    (forall right, derived right (Some "left") = Some "left-start") /\
    derived false (Some "down") = Some "bottom-start" /\
    derived true (Some "down") = Some "bottom-end" /\
    (d <> Some "up" -> d <> Some "right" -> d <> Some "left" ->
     derived false d = Some "bottom-start" /\ derived true d = Some "bottom-end") /\
    (forall (p q : Props) (prev' : CompState),
        drop p = drop q -> alignRight p = alignRight q ->
        placement (Dropdown.getDerivedStateFromProps p prev)
        = placement (Dropdown.getDerivedStateFromProps q prev')).
Proof.
  intros d sel sh fl prev derived. subst derived.
  split; [reflexivity|]. split; [reflexivity|].
  split; [intros []; reflexivity|]. split; [intros []; reflexivity|].
  split; [reflexivity|]. split; [reflexivity|].
  split.
  - intros Hup Hright Hleft.
    unfold Dropdown.getDerivedStateFromProps; cbn [drop alignRight placement].
    rewrite !strictEq_false by assumption. split; reflexivity.
  - intros p q prev' Hd Ha.
    unfold Dropdown.getDerivedStateFromProps; cbn [placement].
    rewrite Hd, Ha. reflexivity.
Qed.

Lemma C3_placement_table_witness :
  placement (Dropdown.getDerivedStateFromProps
               (Sample.propsOf (Some "diagonal") false true)
               (state (Dropdown.constructor (Sample.propsOf None false false))))
  = Some "bottom-start"
  /\ placement (Dropdown.getDerivedStateFromProps
               (Sample.propsOf (Some "diagonal") true true)
               (state (Dropdown.constructor (Sample.propsOf None false false))))
  = Some "bottom-end".
Proof.
  apply (C3_placement_table (Some "diagonal") ".item" true false
           (state (Dropdown.constructor (Sample.propsOf None false false))));
    discriminate.
Defined.

(** ** The focus navigator *)

Lemma indexOfFrom_range (items : list Elem) (x : Elem) :
  forall i : Z,
    indexOfFrom items x i = (-1)%Z
    \/ (i <= indexOfFrom items x i < i + Z.of_nat (List.length items))%Z.
Proof.
  induction items as [|y rest IH]; intros i; simpl.
  - left; reflexivity.
  - destruct (Nat.eqb y x).
    + right. lia.
    + destruct (IH (i + 1)%Z) as [E|R]; [left; exact E | right; lia].
Qed.

Lemma indexOfFrom_missing (items : list Elem) (x : Elem) :
  ~ In x items -> forall i, indexOfFrom items x i = (-1)%Z.
Proof.
  induction items as [|y rest IH]; intros Hnot i; simpl.
  - reflexivity.
  - destruct (Nat.eqb_spec y x) as [->|Hne].
    + exfalso. apply Hnot. left; reflexivity.
    + apply IH. intros Hin. apply Hnot. right; exact Hin.
Qed.

Lemma indexOf_zero (items : list Elem) (x : Elem) :
  indexOf items x = 0%Z -> exists rest, items = x :: rest.
Proof.
  unfold indexOf. destruct items as [|y rest]; simpl.
  - discriminate.
  - destruct (Nat.eqb_spec y x) as [->|Hne].
    + intros _. exists rest; reflexivity.
    + intros H. destruct (indexOfFrom_range rest x 1) as [E|R]; lia.
Qed.

Lemma item_inside (items : list Elem) (i : Z) :
  (0 <= i < Z.of_nat (List.length items))%Z ->
  exists e, nth_error items (Z.to_nat i) = Some e /\ item items i = JElem e.
Proof.
  intros [Hlo Hhi]. unfold item.
  destruct (Z.ltb_spec i 0) as [Hneg|_]; [lia|].
  destruct (nth_error items (Z.to_nat i)) as [e|] eqn:E.
  - exists e. split; reflexivity.
  - apply nth_error_None in E. lia.
Qed.

Lemma item_outside (items : list Elem) (i : Z) :
  (i < 0 \/ Z.of_nat (List.length items) <= i)%Z -> item items i = JUndefined.
Proof.
  intros H. unfold item.
  destruct (Z.ltb_spec i 0) as [Hneg|Hpos]; [reflexivity|].
  destruct (nth_error items (Z.to_nat i)) as [e|] eqn:E; [|reflexivity].
  assert (Hlt : Z.to_nat i < List.length items).
  { apply nth_error_Some. rewrite E. discriminate. }
  lia.
Qed.

Lemma getNextFocusedChild_registered (dom : Dom) (s : Instance) (m current : Elem) (offset : Z) :
  menu s = Some m ->
  Dropdown.getNextFocusedChild dom current offset s
  = ([], Return
           (item (qsa dom m (itemSelector (props s)))
              (Z.max 0 (Z.min (indexOf (qsa dom m (itemSelector (props s))) current + offset)
                          (Z.of_nat (List.length (qsa dom m (itemSelector (props s))))))))
           s).
Proof.
  intros Hm. unfold Dropdown.getNextFocusedChild, bind, this, ret.
  rewrite Hm. reflexivity.
Qed.

Lemma getNextFocusedChild_unregistered (dom : Dom) (s : Instance) (current : Elem) (offset : Z) :
  menu s = None ->
  Dropdown.getNextFocusedChild dom current offset s = ([], Return JNull s).
Proof.
  intros Hm. unfold Dropdown.getNextFocusedChild, bind, this, ret.
  rewrite Hm. reflexivity.
Qed.

(** C5: with N matching items [getNextFocusedChild] takes
    [indexOf(current) + offset], clamps it to [0, N] and returns the item
    there: nothing at N, the item at any index below N; from N-1 with
    offset +1 the index is N and nothing is returned, from 0 with offset
    -1 the index is 0 and the first item is returned. *)
Theorem C5_nextItem_clamp :
  forall (dom : Dom) (s : Instance) (m current : Elem) (offset : Z),
    menu s = Some m ->
    let items := qsa dom m (itemSelector (props s)) in
    let N := Z.of_nat (List.length items) in
    let index := Z.max 0 (Z.min (indexOf items current + offset) N) in
    let result := Dropdown.getNextFocusedChild dom current offset s in
    (0 <= index <= N)%Z /\
    (index = N -> result = ([], Return JUndefined s)) /\
    ((index < N)%Z ->
     exists e, nth_error items (Z.to_nat index) = Some e
               /\ result = ([], Return (JElem e) s)) /\
    (indexOf items current = (N - 1)%Z -> offset = 1%Z ->
     index = N /\ result = ([], Return JUndefined s)) /\
    (indexOf items current = 0%Z -> offset = (-1)%Z ->
     index = 0%Z /\ exists rest, items = current :: rest
                                 /\ result = ([], Return (JElem current) s)).
Proof.
  intros dom s m current offset Hm items N index result.
  assert (Hres : result = ([], Return (item items index) s)).
  { subst result index N items. apply getNextFocusedChild_registered. exact Hm. }
  assert (Hrange : (0 <= index <= N)%Z) by (subst index N; lia).
  split; [exact Hrange|].
  split.
  { intros HN. rewrite Hres, item_outside; [reflexivity|]. right. subst N. lia. }
  split.
  { intros Hlt. destruct (item_inside items index) as [e [Hnth Hitem]].
    - subst N. lia.
    - exists e. split; [exact Hnth|]. rewrite Hres, Hitem. reflexivity. }
  split.
  { intros Hidx Hoff.
    assert (HN : index = N) by (subst index; lia).
    split; [exact HN|].
    rewrite Hres, item_outside; [reflexivity|]. right. subst N. lia. }
  intros Hidx Hoff.
  destruct (indexOf_zero items current Hidx) as [rest Hitems].
  assert (H0 : index = 0%Z) by (subst index; lia).
  split; [exact H0|].
  exists rest. split; [exact Hitems|].
  rewrite Hres, H0, Hitems. reflexivity.
Qed.

Lemma C5_nextItem_clamp_witness :
  Dropdown.getNextFocusedChild (Sample.focusOn 5) 5 1 (Sample.mounted (Some 2) true)
  = ([], Return JUndefined (Sample.mounted (Some 2) true))
  /\ (exists rest,
         qsa (Sample.focusOn 3) 2 ".item" = 3 :: rest
         /\ Dropdown.getNextFocusedChild (Sample.focusOn 3) 3 (-1) (Sample.mounted (Some 2) true)
            = ([], Return (JElem 3) (Sample.mounted (Some 2) true))).
Proof.
  split.
  - apply (C5_nextItem_clamp (Sample.focusOn 5) (Sample.mounted (Some 2) true) 2 5 1);
      reflexivity.
  - apply (C5_nextItem_clamp (Sample.focusOn 3) (Sample.mounted (Some 2) true) 2 3 (-1));
      reflexivity.
Defined.

(** C10: when the current element is not among a non-empty list of
    items, the base index is -1: offset +1 returns the first item, offset
    -1 gives -2, clamped to 0, the first item again; for any offset the
    index is the clamp of [-1 + offset], so offset +1 does not return
    the second item as a base index 0 would. *)
Theorem C10_missing_current_base :
  forall (dom : Dom) (s : Instance) (m current first : Elem) (rest : list Elem),
    menu s = Some m ->
    qsa dom m (itemSelector (props s)) = first :: rest ->
    ~ In current (first :: rest) ->
    let items := first :: rest in
    let N := Z.of_nat (List.length items) in
    indexOf items current = (-1)%Z /\
    Dropdown.getNextFocusedChild dom current 1 s = ([], Return (JElem first) s) /\
    Dropdown.getNextFocusedChild dom current (-1) s = ([], Return (JElem first) s) /\
    (forall offset : Z,
        Dropdown.getNextFocusedChild dom current offset s
        = ([], Return (item items (Z.max 0 (Z.min (-1 + offset) N))) s)) /\
    (forall second rest', rest = second :: rest' -> second <> first ->
        item items (0 + 1) = JElem second
        /\ Dropdown.getNextFocusedChild dom current 1 s
           <> ([], Return (item items (0 + 1)) s)).
Proof.
  intros dom s m current first rest Hm Hq Hnot items N.
  assert (Hidx : indexOf items current = (-1)%Z).
  { unfold indexOf. apply indexOfFrom_missing. exact Hnot. }
  assert (Hgen : forall offset : Z,
             Dropdown.getNextFocusedChild dom current offset s
             = ([], Return (item items (Z.max 0 (Z.min (-1 + offset) N))) s)).
  { intros offset. rewrite (getNextFocusedChild_registered dom s m current offset Hm).
    rewrite Hq. fold items. rewrite Hidx. reflexivity. }
  assert (Hpos : (1 <= N)%Z) by (subst N items; simpl List.length; lia).
  split; [exact Hidx|].
  split.
  { rewrite Hgen. replace (Z.max 0 (Z.min (-1 + 1) N)) with 0%Z by lia. reflexivity. }
  split.
  { rewrite Hgen. replace (Z.max 0 (Z.min (-1 + -1) N)) with 0%Z by lia. reflexivity. }
  split; [exact Hgen|].
  intros second rest' Hrest Hne.
  assert (Hsecond : item items (0 + 1) = JElem second).
  { subst items. rewrite Hrest. reflexivity. }
  split; [exact Hsecond|].
  rewrite Hgen, Hsecond.
  replace (Z.max 0 (Z.min (-1 + 1) N)) with 0%Z by lia.
  intros Heq. apply Hne. inversion Heq. reflexivity.
Qed.

Lemma C10_missing_current_base_witness :
  Dropdown.getNextFocusedChild (Sample.focusOn 1) 1 1 (Sample.mounted (Some 2) true)
  = ([], Return (JElem 3) (Sample.mounted (Some 2) true))
  /\ Dropdown.getNextFocusedChild (Sample.focusOn 1) 1 (-1) (Sample.mounted (Some 2) true)
     = ([], Return (JElem 3) (Sample.mounted (Some 2) true)).
Proof.
  assert (Hnot : ~ In 1 [3; 4; 5]).
  { simpl. intros [H|[H|[H|[]]]]; discriminate. }
  pose proof (C10_missing_current_base (Sample.focusOn 1) (Sample.mounted (Some 2) true)
                2 1 3 [4; 5] eq_refl eq_refl Hnot) as H.
  split; apply H.
Defined.

(** ** Keyboard dispatch *)

Lemma focusIfAble_run (dom : Dom) (x : MaybeElem) (s : Instance) :
  Dropdown.focusIfAble dom x s = (focusTrace dom x, Return tt s).
Proof.
  destruct x as [| |e]; simpl; try reflexivity.
  destruct (hasFocusMethod dom e); reflexivity.
Qed.

Lemma getNextFocusedChild_run (dom : Dom) (s : Instance) (current : Elem) (offset : Z) :
  Dropdown.getNextFocusedChild dom current offset s
  = ([], Return (nextFocused dom s current offset) s).
Proof.
  unfold Dropdown.getNextFocusedChild, nextFocused, bind, this, ret.
  destruct (menu s); reflexivity.
Qed.

Lemma toggleOpen_run (event : Event) (s : Instance) :
  Dropdown.toggleOpen event s
  = ([EOnToggle [ABool (negb (show (props s))); AEvent event]], Return tt s).
Proof. reflexivity. Qed.

Lemma inputGuard_not_input (dom : Dom) (event : Event) (s : Instance) :
  Js.test_input_textarea (tagName dom (target event)) = false ->
  Dropdown.inputGuard dom event s = ([], Return false s).
Proof.
  intros H. unfold Dropdown.inputGuard. rewrite H. reflexivity.
Qed.

Lemma inputGuard_input (dom : Dom) (event : Event) (s : Instance) :
  Js.test_input_textarea (tagName dom (target event)) = true ->
  Dropdown.inputGuard dom event s
  = if String.eqb (key event) " " then ([], Return true s)
    else if String.eqb (key event) "Escape" then ([], Return false s)
    else match menu s with
         | Some m => ([], Return (contains dom m (Some (target event))) s)
         | None => ([], Throw (TypeError "this.menu.contains") s)
         end.
Proof.
  intros H. unfold Dropdown.inputGuard. rewrite H. cbn [negb].
  destruct (String.eqb (key event) " "); [reflexivity|].
  destruct (String.eqb (key event) "Escape"); [reflexivity|].
  unfold bind, this, ret, throw. destruct (menu s); reflexivity.
Qed.

Lemma handleKeyDown_ignored (dom : Dom) (event : Event) (s : Instance) :
  Dropdown.inputGuard dom event s = ([], Return true s) ->
  Dropdown.handleKeyDown dom event s = ([], Return tt s).
Proof.
  intros H. unfold Dropdown.handleKeyDown, bind. rewrite H. reflexivity.
Qed.

Lemma handleKeyDown_dispatched (dom : Dom) (event : Event) (s : Instance) :
  Dropdown.inputGuard dom event s = ([], Return false s) ->
  Dropdown.handleKeyDown dom event s = Dropdown.keySwitch dom event s.
Proof.
  intros H. unfold Dropdown.handleKeyDown, bind. rewrite H.
  destruct (Dropdown.keySwitch dom event s) as [t o]. reflexivity.
Qed.

Lemma handleKeyDown_guard_throws (dom : Dom) (event : Event) (s : Instance) (e : Exn) :
  Dropdown.inputGuard dom event s = ([], Throw e s) ->
  Dropdown.handleKeyDown dom event s = ([], Throw e s).
Proof.
  intros H. unfold Dropdown.handleKeyDown, bind. rewrite H. reflexivity.
Qed.

Lemma keySwitch_ArrowUp (dom : Dom) (event : Event) (s : Instance) :
  key event = "ArrowUp" ->
  Dropdown.keySwitch dom event s
  = (focusTrace dom (nextFocused dom s (target event) (-1)) ++ [EPreventDefault event],
     Return tt s).
Proof.
  intros Hk. unfold Dropdown.keySwitch. rewrite Hk. cbn [String.eqb Ascii.eqb Bool.eqb].
  unfold bind. rewrite getNextFocusedChild_run, focusIfAble_run. reflexivity.
Qed.

Lemma keySwitch_ArrowDown_closed (dom : Dom) (event : Event) (s : Instance) :
  key event = "ArrowDown" -> show (props s) = false ->
  Dropdown.keySwitch dom event s
  = ([EPreventDefault event; EOnToggle [ABool true; AEvent event]], Return tt s).
Proof.
  intros Hk Hs. unfold Dropdown.keySwitch. rewrite Hk. cbn [String.eqb Ascii.eqb Bool.eqb].
  unfold bind, emit, this. rewrite Hs. cbn [negb].
  rewrite toggleOpen_run, Hs. reflexivity.
Qed.

Lemma keySwitch_ArrowDown_open (dom : Dom) (event : Event) (s : Instance) :
  key event = "ArrowDown" -> show (props s) = true ->
  Dropdown.keySwitch dom event s
  = (EPreventDefault event :: focusTrace dom (nextFocused dom s (target event) 1),
     Return tt s).
Proof.
  intros Hk Hs. unfold Dropdown.keySwitch. rewrite Hk. cbn [String.eqb Ascii.eqb Bool.eqb].
  unfold bind, emit, this. rewrite Hs. cbn [negb].
  rewrite getNextFocusedChild_run, focusIfAble_run. reflexivity.
Qed.

Lemma keySwitch_close (dom : Dom) (event : Event) (s : Instance) :
  key event = "Escape" \/ key event = "Tab" ->
  Dropdown.keySwitch dom event s = ([], Throw (TypeError "this.handleClose") s).
Proof.
  intros [Hk|Hk]; unfold Dropdown.keySwitch; rewrite Hk; reflexivity.
Qed.

(** C9: for a keydown whose target is an input or a textarea, the guard
    of [handleKeyDown] fires exactly when the key is a space, or the key
    is not Escape and the target is inside the menu; when it fires the
    handler returns with no focus call, no toggle request and no
    preventDefault; the switch runs only when it does not fire, and an
    arrow key, which always calls preventDefault in the switch, leaves no
    trace exactly when the guard fires. *)
Theorem C9_input_guard :
  forall (dom : Dom) (s : Instance) (event : Event),
    Js.test_input_textarea (tagName dom (target event)) = true ->
    let fires :=
      key event = " "
      \/ (key event <> "Escape"
          /\ exists m, menu s = Some m /\ contains dom m (Some (target event)) = true) in
    (Dropdown.inputGuard dom event s = ([], Return true s) <-> fires) /\
    (fires -> Dropdown.handleKeyDown dom event s = ([], Return tt s)) /\
    (trace (Dropdown.handleKeyDown dom event s) <> [] -> ~ fires) /\
    (~ fires -> menu s <> None \/ key event = "Escape" ->
     Dropdown.inputGuard dom event s = ([], Return false s)
     /\ Dropdown.handleKeyDown dom event s = Dropdown.keySwitch dom event s) /\
    (menu s <> None -> key event = "ArrowUp" \/ key event = "ArrowDown" ->
     (trace (Dropdown.handleKeyDown dom event s) = [] <-> fires)).
Proof.
  intros dom s event Hinput fires.
  pose proof (inputGuard_input dom event s Hinput) as Hg.
  assert (Hiff : Dropdown.inputGuard dom event s = ([], Return true s) <-> fires).
  { subst fires. rewrite Hg.
    destruct (String.eqb_spec (key event) " ") as [Hsp|Hsp].
    { split; [intros _; left; exact Hsp | reflexivity]. }
    destruct (String.eqb_spec (key event) "Escape") as [Hesc|Hesc].
    { split; [discriminate|].
      intros [H|[H _]]; contradiction. }
    destruct (menu s) as [m|].
    - split.
      + intros H. right. split; [exact Hesc|]. exists m. split; [reflexivity|].
        inversion H. reflexivity.
      + intros [H|[_ [m' [Hm' Hc]]]]; [contradiction|].
        inversion Hm'; subst m'. rewrite Hc. reflexivity.
    - split; [discriminate|].
      intros [H|[_ [m' [Hm' _]]]]; [contradiction|discriminate]. }
  assert (Hfire : fires -> Dropdown.handleKeyDown dom event s = ([], Return tt s)).
  { intros Hf. apply handleKeyDown_ignored. apply Hiff. exact Hf. }
  assert (Hnot : ~ fires -> menu s <> None \/ key event = "Escape" ->
                 Dropdown.inputGuard dom event s = ([], Return false s)).
  { intros Hnf Hreg. rewrite Hg.
    destruct (String.eqb_spec (key event) " ") as [Hsp|Hsp].
    { exfalso. apply Hnf. left. exact Hsp. }
    destruct (String.eqb_spec (key event) "Escape") as [Hesc|Hesc]; [reflexivity|].
    destruct (menu s) as [m|] eqn:Hm.
    - destruct (contains dom m (Some (target event))) eqn:Hc; [|reflexivity].
      exfalso. apply Hnf. right. split; [exact Hesc|]. exists m. split; [reflexivity|exact Hc].
    - destruct Hreg as [Hreg|Hreg]; [contradiction Hreg; reflexivity | contradiction]. }
  split; [exact Hiff|]. split; [exact Hfire|].
  split.
  { intros Htrace Hf. apply Htrace. rewrite (Hfire Hf). reflexivity. }
  split.
  { intros Hnf Hreg. split; [exact (Hnot Hnf Hreg)|].
    apply handleKeyDown_dispatched. exact (Hnot Hnf Hreg). }
  intros Hreg Hkey. split.
  - intros Htrace.
    destruct (String.eqb_spec (key event) " ") as [Hsp|Hsp]; [left; exact Hsp|].
    assert (Hesc : key event <> "Escape").
    { destruct Hkey as [Hk|Hk]; rewrite Hk; discriminate. }
    destruct (menu s) as [m|] eqn:Hm; [|contradiction Hreg; reflexivity].
    destruct (contains dom m (Some (target event))) eqn:Hc.
    + right. split; [exact Hesc|]. exists m. split; [reflexivity|exact Hc].
    + exfalso.
      assert (Hgf : Dropdown.inputGuard dom event s = ([], Return false s)).
      { rewrite Hg.
        destruct (String.eqb_spec (key event) " "); [contradiction|].
        destruct (String.eqb_spec (key event) "Escape"); [contradiction|].
        reflexivity. }
      rewrite (handleKeyDown_dispatched dom event s Hgf) in Htrace.
      destruct Hkey as [Hk|Hk].
      * rewrite (keySwitch_ArrowUp dom event s Hk) in Htrace.
        unfold trace in Htrace. simpl fst in Htrace.
        destruct (focusTrace dom (nextFocused dom s (target event) (-1))); discriminate.
      * destruct (show (props s)) eqn:Hs.
        -- rewrite (keySwitch_ArrowDown_open dom event s Hk Hs) in Htrace. discriminate.
        -- rewrite (keySwitch_ArrowDown_closed dom event s Hk Hs) in Htrace. discriminate.
  - intros Hf. rewrite (Hfire Hf). reflexivity.
Qed.

Lemma C9_input_guard_witness :
  Dropdown.handleKeyDown (Sample.focusOn 6) (Sample.keydown "ArrowDown" 6)
    (Sample.mounted (Some 2) true)
  = ([], Return tt (Sample.mounted (Some 2) true)).
Proof.
  apply (C9_input_guard (Sample.focusOn 6) (Sample.mounted (Some 2) true)
           (Sample.keydown "ArrowDown" 6) eq_refl).
  right. split; [discriminate|]. exists 2. split; reflexivity.
Defined.

(** C1: on Escape or Tab, past the guard, [handleKeyDown] evaluates
    [this.handleClose(event)]; the class has no member [handleClose], so
    the call raises a TypeError: nothing reaches [onToggle], no source
    tag is passed, and preventDefault is not called. *)
Theorem C1_close_keys :
  forall (dom : Dom) (s : Instance) (event : Event),
    key event = "Escape" \/ key event = "Tab" ->
    Dropdown.inputGuard dom event s = ([], Return false s) ->
    Dropdown.handleKeyDown dom event s = ([], Throw (TypeError "this.handleClose") s)
    /\ trace (Dropdown.handleKeyDown dom event s) = [].
Proof.
  intros dom s event Hk Hg.
  rewrite (handleKeyDown_dispatched dom event s Hg), (keySwitch_close dom event s Hk).
  split; reflexivity.
Qed.

Lemma C1_close_keys_witness :
  Dropdown.handleKeyDown (Sample.focusOn 5) (Sample.keydown "Escape" 5)
    (Sample.mounted (Some 2) true)
  = ([], Throw (TypeError "this.handleClose") (Sample.mounted (Some 2) true))
  /\ trace (Dropdown.handleKeyDown (Sample.focusOn 5) (Sample.keydown "Escape" 5)
              (Sample.mounted (Some 2) true)) = [].
Proof.
  apply (C1_close_keys (Sample.focusOn 5) (Sample.mounted (Some 2) true)
           (Sample.keydown "Escape" 5)).
  - left. reflexivity.
  - reflexivity.
Defined.

(** C2: [toggleOpen], which serves the click and the ArrowDown request
    alike, calls [onToggle] once, with the negation of [props.show] and
    the event: two arguments, and no source tag in third place. *)
Theorem C2_toggle_request :
  forall (s : Instance) (event : Event),
    let requested := negb (show (props s)) in
    Dropdown.toggleOpen event s
    = ([EOnToggle [ABool requested; AEvent event]], Return tt s)
    /\ Dropdown.handleClick event s
       = ([EOnToggle [ABool requested; AEvent event]], Return tt s)
    /\ (forall tag : string,
           Dropdown.handleClick event s
           <> ([EOnToggle [ABool requested; AEvent event; AStr tag]], Return tt s)).
Proof.
  intros s event requested. subst requested.
  split; [apply toggleOpen_run|].
  split; [apply toggleOpen_run|].
  intros tag H. unfold Dropdown.handleClick in H. rewrite toggleOpen_run in H.
  inversion H.
Qed.

(** C8: on ArrowDown, past the guard, preventDefault is called first;
    closed, [onToggle] is then called with [true] and the event, two
    arguments and no source tag; open, the item one after the target is
    focused, and nothing is focused when the target is the last item or
    the index runs past it. *)
Theorem C8_arrow_down :
  forall (dom : Dom) (s : Instance) (event : Event),
    key event = "ArrowDown" ->
    Dropdown.inputGuard dom event s = ([], Return false s) ->
    (show (props s) = false ->
     Dropdown.handleKeyDown dom event s
     = ([EPreventDefault event; EOnToggle [ABool true; AEvent event]], Return tt s)) /\
    (show (props s) = true ->
     Dropdown.handleKeyDown dom event s
     = (EPreventDefault event :: focusTrace dom (nextFocused dom s (target event) 1),
        Return tt s)) /\
    (show (props s) = true ->
     forall m, menu s = Some m ->
       let items := qsa dom m (itemSelector (props s)) in
       (Z.of_nat (List.length items) <= indexOf items (target event) + 1)%Z ->
       Dropdown.handleKeyDown dom event s = ([EPreventDefault event], Return tt s)).
Proof.
  intros dom s event Hk Hg.
  rewrite (handleKeyDown_dispatched dom event s Hg).
  split; [|split].
  - intros Hs. apply keySwitch_ArrowDown_closed; assumption.
  - intros Hs. apply keySwitch_ArrowDown_open; assumption.
  - intros Hs m Hm items Hlast.
    rewrite (keySwitch_ArrowDown_open dom event s Hk Hs).
    unfold nextFocused. rewrite Hm. fold items.
    rewrite item_outside; [reflexivity|]. right. lia.
Qed.

Lemma C8_arrow_down_witness :
  Dropdown.handleKeyDown (Sample.focusOn 1) (Sample.keydown "ArrowDown" 1)
    (Sample.mounted (Some 2) false)
  = ([EPreventDefault (Sample.keydown "ArrowDown" 1);
      EOnToggle [ABool true; AEvent (Sample.keydown "ArrowDown" 1)]],
     Return tt (Sample.mounted (Some 2) false)).
Proof.
  apply (C8_arrow_down (Sample.focusOn 1) (Sample.mounted (Some 2) false)
           (Sample.keydown "ArrowDown" 1)); reflexivity.
Defined.

(** C4: without a registered menu, [getNextFocusedChild] returns null,
    [maybeFocusFirst] and [updatePosition] do nothing; but
    [handleKeyDown] on an input or textarea, for a key other than space
    and Escape, and [render] on a closing transition, evaluate
    [this.menu.contains] unguarded and raise a TypeError. *)
Theorem C4_unregistered_menu :
  forall (dom : Dom) (s : Instance),
    menu s = None ->
    (forall current offset,
        Dropdown.getNextFocusedChild dom current offset s = ([], Return JNull s)) /\
    Dropdown.maybeFocusFirst dom s = ([], Return tt s) /\
    Dropdown.updatePosition s = ([], Return tt s) /\
    (forall event,
        Js.test_input_textarea (tagName dom (target event)) = true ->
        key event <> " " -> key event <> "Escape" ->
        Dropdown.handleKeyDown dom event s
        = ([], Throw (TypeError "this.menu.contains") s)) /\
    (lastShow (state s) = true -> show (props s) = false ->
     Dropdown.render dom s = ([], Throw (TypeError "this.menu.contains") s)).
Proof.
  intros dom s Hm.
  split; [intros; apply getNextFocusedChild_unregistered; exact Hm|].
  split.
  { unfold Dropdown.maybeFocusFirst, Dropdown.hasMenuRole, bind, this, ret.
    rewrite Hm. reflexivity. }
  split.
  { unfold Dropdown.updatePosition, bind, this, ret.
    rewrite Hm. destruct (toggle s); reflexivity. }
  split.
  { intros event Hinput Hsp Hesc.
    apply handleKeyDown_guard_throws.
    rewrite (inputGuard_input dom event s Hinput).
    destruct (String.eqb_spec (key event) " "); [contradiction|].
    destruct (String.eqb_spec (key event) "Escape"); [contradiction|].
    rewrite Hm. reflexivity. }
  intros Hlast Hshow.
  unfold Dropdown.render, bind, this, ret, throw.
  rewrite Hlast, Hshow, Hm. reflexivity.
Qed.

Lemma C4_unregistered_menu_witness :
  Dropdown.handleKeyDown (Sample.focusOn 7) (Sample.keydown "ArrowDown" 7) Sample.closing
  = ([], Throw (TypeError "this.menu.contains") Sample.closing)
  /\ Dropdown.render (Sample.focusOn 7) Sample.closing
     = ([], Throw (TypeError "this.menu.contains") Sample.closing).
Proof.
  pose proof (C4_unregistered_menu (Sample.focusOn 7) Sample.closing eq_refl)
    as [_ [_ [_ [Hkey Hrender]]]].
  split.
  - apply Hkey; [reflexivity | discriminate | discriminate].
  - apply Hrender; reflexivity.
Defined.

(** ** Update cycles *)

Lemma bind_return {A B} (m : M A) (k : A -> M B) (s s1 : Instance)
      (t1 t2 : list Effect) (a : A) (o : Outcome B) :
  m s = (t1, Return a s1) -> k a s1 = (t2, o) -> bind m k s = (t1 ++ t2, o).
Proof.
  intros Hm Hk. unfold bind. rewrite Hm, Hk. reflexivity.
Qed.

Lemma focusTrace_all_focus (dom : Dom) (x : MaybeElem) :
  filter isFocus (focusTrace dom x) = focusTrace dom x.
Proof.
  destruct x as [| |e]; simpl; try reflexivity.
  destruct (hasFocusMethod dom e); reflexivity.
Qed.

Lemma updatePosition_run (s : Instance) :
  exists t, Dropdown.updatePosition s = (t, Return tt s) /\ filter isFocus t = [].
Proof.
  unfold Dropdown.updatePosition, bind, this, ret, emit.
  destruct (toggle s) as [t|]; [destruct (menu s) as [m|]|]; eexists; split; reflexivity.
Qed.

Lemma ifShow_updatePosition_run (s : Instance) :
  exists t,
    (if show (props s) then Dropdown.updatePosition else ret tt) s = (t, Return tt s)
    /\ filter isFocus t = [].
Proof.
  destruct (show (props s)).
  - apply updatePosition_run.
  - exists []. split; reflexivity.
Qed.

Lemma setMenuElement_run (el : option Elem) (s : Instance) :
  exists t,
    Dropdown.setMenuElement el s = (t, Return tt (Dropdown.set_menu el s))
    /\ filter isFocus t = [].
Proof.
  destruct (ifShow_updatePosition_run (Dropdown.set_menu el s)) as [t [Hrun Hnf]].
  exists t. split; [|exact Hnf].
  unfold Dropdown.setMenuElement.
  apply (bind_return _ _ s (Dropdown.set_menu el s) [] t tt); [reflexivity|].
  apply (bind_return _ _ _ (Dropdown.set_menu el s) [] t (Dropdown.set_menu el s));
    [reflexivity|exact Hrun].
Qed.

Lemma setToggleElement_run (el : option Elem) (s : Instance) :
  exists t,
    Dropdown.setToggleElement el s = (t, Return tt (Dropdown.set_toggle el s))
    /\ filter isFocus t = [].
Proof.
  destruct (ifShow_updatePosition_run (Dropdown.set_toggle el s)) as [t [Hrun Hnf]].
  exists ((match el with Some _ => [ESetState UToggleId] | None => [] end) ++ t).
  split.
  - unfold Dropdown.setToggleElement.
    apply (bind_return _ _ s (Dropdown.set_toggle el s) [] _ tt); [reflexivity|].
    apply (bind_return _ _ _ (Dropdown.set_toggle el s) _ t tt).
    + destruct el; reflexivity.
    + apply (bind_return _ _ _ (Dropdown.set_toggle el s) [] t (Dropdown.set_toggle el s));
        [reflexivity|exact Hrun].
  - rewrite filter_app, Hnf. destruct el; reflexivity.
Qed.

(** The ref callbacks return, call no [focus], and write [menu] and
    [toggle] only. *)
Lemma runRefs_run (refs : list React.RefCall) :
  forall s : Instance,
  exists t s',
    React.runRefs refs s = (t, Return tt s')
    /\ filter isFocus t = []
    /\ props s' = props s /\ state s' = state s
    /\ _focusInDropdown s' = _focusInDropdown s.
Proof.
  induction refs as [|r rest IH]; intros s.
  - exists [], s. repeat split; reflexivity.
  - assert (Hr : exists t1 s1, React.runRef r s = (t1, Return tt s1)
                               /\ filter isFocus t1 = []
                               /\ props s1 = props s /\ state s1 = state s
                               /\ _focusInDropdown s1 = _focusInDropdown s).
    { destruct r as [el|el]; simpl.
      - destruct (setMenuElement_run el s) as [t1 [H1 H2]].
        exists t1, (Dropdown.set_menu el s). repeat split; assumption.
      - destruct (setToggleElement_run el s) as [t1 [H1 H2]].
        exists t1, (Dropdown.set_toggle el s). repeat split; assumption. }
    destruct Hr as [t1 [s1 [Hrun1 [Hnf1 [Hp1 [Hs1 Hf1]]]]]].
    destruct (IH s1) as [t2 [s2 [Hrun2 [Hnf2 [Hp2 [Hs2 Hf2]]]]]].
    exists (t1 ++ t2), s2. split.
    + simpl React.runRefs. apply (bind_return _ _ s s1 t1 t2 tt); assumption.
    + rewrite filter_app, Hnf1, Hnf2. repeat split; congruence.
Qed.

Lemma render_closing (dom : Dom) (s : Instance) (m : Elem) :
  lastShow (state s) = true -> show (props s) = false -> menu s = Some m ->
  exists ctx s',
    Dropdown.render dom s = ([], Return ctx s')
    /\ props s' = props s /\ menu s' = menu s /\ toggle s' = toggle s
    /\ _focusInDropdown s' = contains dom m (activeElement dom).
Proof.
  intros Hlast Hshow Hm.
  unfold Dropdown.render, bind, this, ret, assign.
  rewrite Hlast, Hshow, Hm. simpl.
  eexists; eexists. split; [reflexivity|]. repeat split; assumption.
Qed.

Lemma render_steady (dom : Dom) (s : Instance) :
  lastShow (state s) && negb (show (props s)) = false ->
  exists ctx s',
    Dropdown.render dom s = ([], Return ctx s')
    /\ props s' = props s /\ menu s' = menu s /\ toggle s' = toggle s
    /\ _focusInDropdown s' = _focusInDropdown s.
Proof.
  intros Hcond.
  unfold Dropdown.render, bind, this, ret, assign.
  rewrite Hcond. simpl.
  eexists; eexists. split; [reflexivity|]. repeat split.
Qed.

Lemma focus_run (dom : Dom) (s : Instance) :
  Dropdown.focus dom s = (toggleFocusTrace dom s, Return tt s).
Proof.
  unfold Dropdown.focus, toggleFocusTrace, bind, this, ret, emit.
  destruct (toggle s) as [t|]; [destruct (hasFocusMethod dom t)|]; reflexivity.
Qed.

Lemma maybeFocusFirst_run (dom : Dom) (s : Instance) :
  Dropdown.maybeFocusFirst dom s = (firstFocusTrace dom s, Return tt s).
Proof.
  unfold Dropdown.maybeFocusFirst, Dropdown.hasMenuRole, Dropdown.qsaMenu,
    firstFocusTrace, bind, this, ret.
  destruct (menu s) as [m|] eqn:Hm; [|reflexivity].
  destruct (matches dom m "[role=menu]"); simpl; [|reflexivity].
  rewrite Hm, focusIfAble_run. reflexivity.
Qed.

Lemma componentDidUpdate_closing (dom : Dom) (prev : Props) (s : Instance) :
  show (props s) = false -> show prev = true ->
  Dropdown.componentDidUpdate dom prev s
  = if _focusInDropdown s
    then (toggleFocusTrace dom s, Return tt (Dropdown.set_focusInDropdown false s))
    else ([], Return tt s).
Proof.
  intros Hshow Hprev.
  unfold Dropdown.componentDidUpdate, bind, this, ret, assign.
  rewrite Hshow, Hprev. simpl.
  destruct (_focusInDropdown s); [|reflexivity].
  rewrite focus_run. reflexivity.
Qed.

Lemma componentDidUpdate_opening (dom : Dom) (prev : Props) (s : Instance) :
  show (props s) = true -> show prev = false ->
  exists t,
    Dropdown.componentDidUpdate dom prev s = (t ++ firstFocusTrace dom s, Return tt s)
    /\ filter isFocus t = [].
Proof.
  intros Hshow Hprev.
  destruct (updatePosition_run s) as [t [Hrun Hnf]].
  exists t. split; [|exact Hnf].
  unfold Dropdown.componentDidUpdate, bind, this, ret.
  rewrite Hshow, Hprev. simpl.
  rewrite Hrun, maybeFocusFirst_run. simpl.
  rewrite app_nil_r. reflexivity.
Qed.

Lemma update_run (before after : Dom) (next : Props) (refs : list React.RefCall)
      (s s2 s3 : Instance) (ctx : DropdownContext) (t t' : list Effect) (o : Outcome unit) :
  Dropdown.render before (React.receive next s) = ([], Return ctx s2) ->
  React.runRefs refs s2 = (t, Return tt s3) ->
  Dropdown.componentDidUpdate after (props s) s3 = (t', o) ->
  React.update before after next refs s = (t ++ t', o).
Proof.
  intros Hrender Hrefs Hcdu.
  unfold React.update.
  apply (bind_return _ _ s s [] (t ++ t') s); [reflexivity|].
  apply (bind_return _ _ s (React.receive next s) [] (t ++ t') tt); [reflexivity|].
  apply (bind_return _ _ _ s2 [] (t ++ t') ctx); [exact Hrender|].
  apply (bind_return _ _ _ s3 t t' tt); [exact Hrefs|exact Hcdu].
Qed.

Lemma focusCalls_update (t t' : list Effect) (o : Outcome unit) :
  filter isFocus t = [] ->
  focusCalls (t ++ t', o) = filter isFocus t'.
Proof.
  intros Hnf. unfold focusCalls, trace. simpl fst.
  rewrite filter_app, Hnf. reflexivity.
Qed.

Lemma toggleFocusTrace_all_focus (dom : Dom) (s : Instance) :
  filter isFocus (toggleFocusTrace dom s) = toggleFocusTrace dom s.
Proof.
  unfold toggleFocusTrace.
  destruct (toggle s) as [t|]; [destruct (hasFocusMethod dom t)|]; reflexivity.
Qed.

Lemma firstFocusTrace_all_focus (dom : Dom) (s : Instance) :
  filter isFocus (firstFocusTrace dom s) = firstFocusTrace dom s.
Proof.
  unfold firstFocusTrace.
  destruct (menu s) as [m|]; [|reflexivity].
  destruct (matches dom m "[role=menu]"); [apply focusTrace_all_focus|reflexivity].
Qed.

(** C6: when an open instance receives [show = false], [render] records
    whether the active element is inside the menu, before the commit
    runs; if it is, [componentDidUpdate] calls [focus] on the toggle
    once and clears [_focusInDropdown]; if it is not, no [focus] call is
    made.  The document and the refs after the commit play no part in
    the decision. *)
Theorem C6_close_returns_focus :
  forall (before after : Dom) (next : Props) (refs : list React.RefCall)
         (s : Instance) (m : Elem),
    show (props s) = true ->
    ctx_show (dropdownContext (state s)) = show (props s) ->
    show next = false ->
    menu s = Some m ->
    let r := React.update before after next refs s in
    returns r = true /\
    _focusInDropdown (finalState r) = false /\
    (contains before m (activeElement before) = true ->
     focusCalls r = toggleFocusTrace after (finalState r)
     /\ (forall t, toggle (finalState r) = Some t -> hasFocusMethod after t = true ->
                   focusCalls r = [EFocus t])) /\
    (contains before m (activeElement before) = false -> focusCalls r = []).
Proof.
  intros before after next refs s m Hopen Hctx Hnext Hm r.
  destruct (render_closing before (React.receive next s) m) as
    [ctx [s2 [Hrender [Hp2 [_ [_ Hf2]]]]]].
  { simpl. rewrite Hctx. exact Hopen. }
  { exact Hnext. }
  { exact Hm. }
  destruct (runRefs_run refs s2) as [t [s3 [Hrefs [Hnf [Hp3 [_ Hf3]]]]]].
  assert (Hshow3 : show (props s3) = false).
  { rewrite Hp3, Hp2. exact Hnext. }
  pose proof (componentDidUpdate_closing after (props s) s3 Hshow3 Hopen) as Hcdu.
  rewrite Hf3, Hf2 in Hcdu.
  destruct (contains before m (activeElement before)) eqn:Hinside.
  - assert (Hr : r = (t ++ toggleFocusTrace after s3,
                      Return tt (Dropdown.set_focusInDropdown false s3))).
    { subst r. exact (update_run _ _ _ _ _ _ _ _ _ _ _ Hrender Hrefs Hcdu). }
    assert (Hcalls : focusCalls r = toggleFocusTrace after s3).
    { rewrite Hr, (focusCalls_update _ _ _ Hnf). apply toggleFocusTrace_all_focus. }
    rewrite Hcalls. rewrite Hr. unfold returns, finalState. simpl snd.
    split; [reflexivity|]. split; [reflexivity|].
    split; [|discriminate].
    intros _. split; [reflexivity|].
    intros t0 Ht0 Hfocus. unfold toggleFocusTrace.
    simpl toggle in Ht0. rewrite Ht0, Hfocus. reflexivity.
  - assert (Hr : r = (t ++ [], Return tt s3)).
    { subst r. exact (update_run _ _ _ _ _ _ _ _ _ _ _ Hrender Hrefs Hcdu). }
    assert (Hcalls : focusCalls r = []).
    { rewrite Hr, (focusCalls_update _ _ _ Hnf). reflexivity. }
    rewrite Hcalls. rewrite Hr. unfold returns, finalState. simpl snd.
    split; [reflexivity|]. split; [rewrite Hf3, Hf2; reflexivity|].
    split; [discriminate|]. intros _. reflexivity.
Qed.

Lemma C6_close_returns_focus_witness :
  focusCalls (React.update (Sample.focusOn 4) (Sample.focusOn 0)
                (Sample.propsOf None false false) [React.RefMenu None]
                (Sample.mounted (Some 2) true))
  = [EFocus 1]
  /\ focusCalls (React.update (Sample.focusOn 7) (Sample.focusOn 7)
                   (Sample.propsOf None false false) [React.RefMenu None]
                   (Sample.mounted (Some 2) true))
     = [].
Proof.
  split.
  - apply (C6_close_returns_focus (Sample.focusOn 4) (Sample.focusOn 0)
             (Sample.propsOf None false false) [React.RefMenu None]
             (Sample.mounted (Some 2) true) 2); reflexivity.
  - apply (C6_close_returns_focus (Sample.focusOn 7) (Sample.focusOn 7)
             (Sample.propsOf None false false) [React.RefMenu None]
             (Sample.mounted (Some 2) true) 2); reflexivity.
Defined.

(** C7: when a closed instance receives [show = true],
    [componentDidUpdate] focuses the first element of the menu matching
    [itemSelector] if the menu registered by then matches [[role=menu]],
    and makes no [focus] call if it does not. *)
Theorem C7_open_focuses_first :
  forall (before after : Dom) (next : Props) (refs : list React.RefCall) (s : Instance),
    show (props s) = false ->
    show next = true ->
    let r := React.update before after next refs s in
    returns r = true /\
    focusCalls r = firstFocusTrace after (finalState r) /\
    (forall m first rest,
        menu (finalState r) = Some m ->
        matches after m "[role=menu]" = true ->
        qsa after m (itemSelector next) = first :: rest ->
        hasFocusMethod after first = true ->
        focusCalls r = [EFocus first]) /\
    (forall m,
        menu (finalState r) = Some m ->
        matches after m "[role=menu]" = false ->
        focusCalls r = []).
Proof.
  intros before after next refs s Hclosed Hnext r.
  destruct (render_steady before (React.receive next s)) as
    [ctx [s2 [Hrender [Hp2 _]]]].
  { simpl. rewrite Hnext. apply andb_false_r. }
  destruct (runRefs_run refs s2) as [t [s3 [Hrefs [Hnf [Hp3 _]]]]].
  assert (Hprops3 : props s3 = next).
  { rewrite Hp3, Hp2. reflexivity. }
  assert (Hshow3 : show (props s3) = true).
  { rewrite Hprops3. exact Hnext. }
  destruct (componentDidUpdate_opening after (props s) s3 Hshow3 Hclosed)
    as [tp [Hcdu Hnfp]].
  assert (Hr : r = (t ++ (tp ++ firstFocusTrace after s3), Return tt s3)).
  { subst r. exact (update_run _ _ _ _ _ _ _ _ _ _ _ Hrender Hrefs Hcdu). }
  assert (Hcalls : focusCalls r = firstFocusTrace after s3).
  { rewrite Hr, (focusCalls_update _ _ _ Hnf), filter_app, Hnfp.
    apply firstFocusTrace_all_focus. }
  rewrite Hcalls. rewrite Hr. unfold returns, finalState. simpl snd.
  split; [reflexivity|]. split; [reflexivity|].
  split.
  - intros m first rest Hm Hrole Hitems Hfocus.
    unfold firstFocusTrace. rewrite Hm, Hrole, Hprops3, Hitems.
    simpl. rewrite Hfocus. reflexivity.
  - intros m Hm Hrole.
    unfold firstFocusTrace. rewrite Hm, Hrole. reflexivity.
Qed.

Lemma C7_open_focuses_first_witness :
  focusCalls (React.update (Sample.focusOn 1) (Sample.focusOn 1)
                (Sample.propsOf None false true) [React.RefMenu (Some 2)]
                (Sample.mounted None false))
  = [EFocus 3]
  /\ focusCalls (React.update (Sample.focusOn 1) (Sample.focusOn 1)
                   (Sample.propsOf None false true) [React.RefMenu (Some 8)]
                   (Sample.mounted None false))
     = [].
Proof.
  split.
  - pose proof (C7_open_focuses_first (Sample.focusOn 1) (Sample.focusOn 1)
                  (Sample.propsOf None false true) [React.RefMenu (Some 2)]
                  (Sample.mounted None false) eq_refl eq_refl) as [_ [_ [Hrole _]]].
    apply (Hrole 2 3 [4; 5]); reflexivity.
  - pose proof (C7_open_focuses_first (Sample.focusOn 1) (Sample.focusOn 1)
                  (Sample.propsOf None false true) [React.RefMenu (Some 8)]
                  (Sample.mounted None false) eq_refl eq_refl) as [_ [_ [_ Hplain]]].
    apply (Hplain 8); reflexivity.
Defined.

(** ** The context follows the props *)

Lemma render_cases (dom : Dom) (s : Instance) :
  (exists ctx s',
      Dropdown.render dom s = ([], Return ctx s')
      /\ props s' = props s
      /\ ctx_show (dropdownContext (state s')) = ctx_show (dropdownContext (state s)))
  \/ (exists e, Dropdown.render dom s = ([], Throw e s)).
Proof.
  unfold Dropdown.render, bind, this, ret, assign, throw.
  destruct (lastShow (state s) && negb (show (props s))).
  - destruct (menu s) as [m|].
    + left. simpl. eexists; eexists. split; [reflexivity|]. split; reflexivity.
    + right. eexists. reflexivity.
  - left. simpl. eexists; eexists. split; [reflexivity|]. split; reflexivity.
Qed.

Lemma componentDidUpdate_frame (dom : Dom) (prev : Props) (s : Instance) :
  exists t s',
    Dropdown.componentDidUpdate dom prev s = (t, Return tt s')
    /\ props s' = props s /\ state s' = state s.
Proof.
  destruct (show (props s)) eqn:Hshow; destruct (show prev) eqn:Hprev.
  - exists [], s. unfold Dropdown.componentDidUpdate, bind, this, ret.
    rewrite Hshow, Hprev. repeat split; reflexivity.
  - destruct (componentDidUpdate_opening dom prev s Hshow Hprev) as [t [Hrun _]].
    eexists; exists s. split; [exact Hrun|]. split; reflexivity.
  - rewrite (componentDidUpdate_closing dom prev s Hshow Hprev).
    destruct (_focusInDropdown s); eexists; eexists; repeat split.
  - exists [], s. unfold Dropdown.componentDidUpdate, bind, this, ret.
    rewrite Hshow, Hprev. repeat split; reflexivity.
Qed.

(** After mounting, the context carries the [show] of the props. *)
Lemma mount_context_show (dom : Dom) (p : Props) (refs : list React.RefCall) :
  let r := React.mount dom p refs in
  returns r = true
  /\ props (finalState r) = p
  /\ ctx_show (dropdownContext (state (finalState r))) = show p.
Proof.
  intros r.
  destruct (render_steady dom (React.receive p (Dropdown.constructor p)) eq_refl)
    as [ctx [s2 [Hrender [Hp2 _]]]].
  destruct (render_cases dom (React.receive p (Dropdown.constructor p)))
    as [[ctx' [s2' [Hrender' [_ Hc2]]]]|[e He]]; [|congruence].
  assert (s2' = s2) by congruence. subst s2'.
  destruct (runRefs_run refs s2) as [t [s3 [Hrefs [_ [Hp3 [Hs3 _]]]]]].
  destruct (ifShow_updatePosition_run s3) as [t' [Hmount _]].
  assert (Hr : r = (t ++ t', Return tt s3)).
  { subst r. unfold React.mount.
    apply (bind_return _ _ _ (React.receive p (Dropdown.constructor p)) [] (t ++ t') tt);
      [reflexivity|].
    apply (bind_return _ _ _ s2 [] (t ++ t') ctx); [exact Hrender|].
    apply (bind_return _ _ _ s3 t t' tt); [exact Hrefs|].
    unfold Dropdown.componentDidMount.
    apply (bind_return _ _ s3 s3 [] t' s3); [reflexivity|exact Hmount]. }
  rewrite Hr. unfold returns, finalState. simpl snd.
  split; [reflexivity|]. split.
  - rewrite Hp3, Hp2. reflexivity.
  - rewrite Hs3, Hc2. reflexivity.
Qed.

(** An update that returns leaves the context with the [show] of the
    new props: the state the next update starts from. *)
Lemma update_context_show (before after : Dom) (next : Props)
      (refs : list React.RefCall) (s : Instance) :
  let r := React.update before after next refs s in
  returns r = true ->
  props (finalState r) = next
  /\ ctx_show (dropdownContext (state (finalState r))) = show next.
Proof.
  intros r Hret.
  destruct (render_cases before (React.receive next s))
    as [[ctx [s2 [Hrender [Hp2 Hc2]]]]|[e He]].
  - destruct (runRefs_run refs s2) as [t [s3 [Hrefs [_ [Hp3 [Hs3 _]]]]]].
    destruct (componentDidUpdate_frame after (props s) s3)
      as [t' [s4 [Hcdu [Hp4 Hs4]]]].
    assert (Hr : r = (t ++ t', Return tt s4)).
    { subst r. exact (update_run _ _ _ _ _ _ _ _ _ _ _ Hrender Hrefs Hcdu). }
    rewrite Hr. unfold finalState. simpl snd. split.
    + rewrite Hp4, Hp3, Hp2. reflexivity.
    + rewrite Hs4, Hs3, Hc2. reflexivity.
  - exfalso. subst r. unfold React.update, bind in Hret.
    simpl in Hret. rewrite He in Hret. discriminate.
Qed.

(** ** Scenarios *)

(** Items A, B, C with the focus on B: ArrowDown focuses C; ArrowDown on
    C finds index 3 of 3 and focuses nothing. *)
Example arrow_down_from_B :
  trace (Dropdown.handleKeyDown (Sample.focusOn 4) (Sample.keydown "ArrowDown" 4)
           (Sample.mounted (Some 2) true))
  = [EPreventDefault (Sample.keydown "ArrowDown" 4); EFocus 5].
Proof. reflexivity. Qed.

Example arrow_down_from_C :
  trace (Dropdown.handleKeyDown (Sample.focusOn 5) (Sample.keydown "ArrowDown" 5)
           (Sample.mounted (Some 2) true))
  = [EPreventDefault (Sample.keydown "ArrowDown" 5)].
Proof. reflexivity. Qed.

Example arrow_up_from_A :
  trace (Dropdown.handleKeyDown (Sample.focusOn 3) (Sample.keydown "ArrowUp" 3)
           (Sample.mounted (Some 2) true))
  = [EFocus 3; EPreventDefault (Sample.keydown "ArrowUp" 3)].
Proof. reflexivity. Qed.

Example up_end_is_top_end :
  placement (state (finalState
    (React.mount (Sample.focusOn 0) (Sample.propsOf (Some "up") true false) [])))
  = Some "top-end".
Proof. reflexivity. Qed.

Example tag_test :
  Js.test_input_textarea "TEXTAREA" = true
  /\ Js.test_input_textarea "input" = true
  /\ Js.test_input_textarea "BUTTON" = false.
Proof. repeat split. Qed.


(** * Further properties of the class *)

(** ** The keyboard handler as a whole *)

Lemma inputGuard_cases (dom : Dom) (event : Event) (s : Instance) :
  Dropdown.inputGuard dom event s = ([], Return true s)
  \/ Dropdown.inputGuard dom event s = ([], Return false s)
  \/ Dropdown.inputGuard dom event s = ([], Throw (TypeError "this.menu.contains") s).
Proof.
  destruct (Js.test_input_textarea (tagName dom (target event))) eqn:Hin.
  - rewrite (inputGuard_input dom event s Hin).
    destruct (String.eqb (key event) " "); [left; reflexivity|].
    destruct (String.eqb (key event) "Escape"); [right; left; reflexivity|].
    destruct (menu s) as [m|]; [|right; right; reflexivity].
    destruct (contains dom m (Some (target event))); [left|right; left]; reflexivity.
  - right; left. apply inputGuard_not_input. exact Hin.
Qed.

Lemma keySwitch_other (dom : Dom) (event : Event) (s : Instance) :
  key event <> "ArrowUp" -> key event <> "ArrowDown" ->
  key event <> "Escape" -> key event <> "Tab" ->
  Dropdown.keySwitch dom event s = ([], Return tt s).
Proof.
  intros Hup Hdown Hesc Htab. unfold Dropdown.keySwitch.
  destruct (String.eqb_spec (key event) "ArrowUp"); [contradiction|].
  destruct (String.eqb_spec (key event) "ArrowDown"); [contradiction|].
  destruct (String.eqb_spec (key event) "Escape"); [contradiction|].
  destruct (String.eqb_spec (key event) "Tab"); [contradiction|].
  reflexivity.
Qed.

(** Every run of [handleKeyDown] has one of six shapes. *)
Lemma handleKeyDown_cases (dom : Dom) (event : Event) (s : Instance) :
  Dropdown.handleKeyDown dom event s = ([], Return tt s)
  \/ Dropdown.handleKeyDown dom event s
     = ([], Throw (TypeError "this.menu.contains") s)
  \/ ((key event = "Escape" \/ key event = "Tab")
      /\ Dropdown.handleKeyDown dom event s
         = ([], Throw (TypeError "this.handleClose") s))
  \/ (key event = "ArrowUp"
      /\ Dropdown.handleKeyDown dom event s
         = (focusTrace dom (nextFocused dom s (target event) (-1))
              ++ [EPreventDefault event], Return tt s))
  \/ (key event = "ArrowDown" /\ show (props s) = false
      /\ Dropdown.handleKeyDown dom event s
         = ([EPreventDefault event; EOnToggle [ABool true; AEvent event]],
            Return tt s))
  \/ (key event = "ArrowDown" /\ show (props s) = true
      /\ Dropdown.handleKeyDown dom event s
         = (EPreventDefault event
              :: focusTrace dom (nextFocused dom s (target event) 1),
            Return tt s)).
Proof.
  destruct (inputGuard_cases dom event s) as [Hg|[Hg|Hg]].
  - left. apply handleKeyDown_ignored. exact Hg.
  - rewrite (handleKeyDown_dispatched dom event s Hg).
    destruct (String.eqb_spec (key event) "ArrowUp") as [Hup|Hup].
    { right; right; right; left. split; [exact Hup|].
      apply keySwitch_ArrowUp. exact Hup. }
    destruct (String.eqb_spec (key event) "ArrowDown") as [Hdown|Hdown].
    { destruct (show (props s)) eqn:Hs.
      - do 5 right. split; [exact Hdown|]. split; [reflexivity|].
        apply keySwitch_ArrowDown_open; assumption.
      - do 4 right; left. split; [exact Hdown|]. split; [reflexivity|].
        apply keySwitch_ArrowDown_closed; assumption. }
    destruct (String.eqb_spec (key event) "Escape") as [Hesc|Hesc].
    { right; right; left. split; [left; exact Hesc|].
      apply keySwitch_close. left; exact Hesc. }
    destruct (String.eqb_spec (key event) "Tab") as [Htab|Htab].
    { right; right; left. split; [right; exact Htab|].
      apply keySwitch_close. right; exact Htab. }
    left. apply keySwitch_other; assumption.
  - right; left. apply handleKeyDown_guard_throws. exact Hg.
Qed.

Lemma focusTrace_In (dom : Dom) (x : MaybeElem) (e : Effect) :
  In e (focusTrace dom x) ->
  exists el, e = EFocus el /\ x = JElem el /\ hasFocusMethod dom el = true.
Proof.
  destruct x as [| |el]; simpl; try contradiction.
  destruct (hasFocusMethod dom el) eqn:Hf; simpl; [|contradiction].
  intros [<-|[]]. exists el. repeat split. exact Hf.
Qed.

Lemma focusTrace_length (dom : Dom) (x : MaybeElem) :
  List.length (focusTrace dom x) <= 1.
Proof.
  destruct x as [| |el]; simpl; try lia.
  destruct (hasFocusMethod dom el); simpl; lia.
Qed.

Lemma item_elem_In (items : list Elem) (i : Z) (e : Elem) :
  item items i = JElem e -> In e items.
Proof.
  unfold item. destruct (i <? 0)%Z; [discriminate|].
  destruct (nth_error items (Z.to_nat i)) as [x|] eqn:E; [|discriminate].
  intros [= <-]. exact (nth_error_In _ _ E).
Qed.

Lemma nextFocused_is_item (dom : Dom) (s : Instance) (current : Elem) (offset : Z) (e : Elem) :
  nextFocused dom s current offset = JElem e ->
  exists m, menu s = Some m /\ In e (qsa dom m (itemSelector (props s))).
Proof.
  unfold nextFocused. destruct (menu s) as [m|]; [|discriminate].
  intros H. exists m. split; [reflexivity|]. exact (item_elem_In _ _ _ H).
Qed.

(** X1: a keydown never writes the instance (props, state, focus flag,
    menu and toggle are as before, whether the handler returns or
    throws), and all it does outside is [preventDefault], [focus] and
    [onToggle]: it never calls the positioner or [setState]. *)
Theorem keydown_leaves_instance :
  forall (dom : Dom) (event : Event) (s : Instance),
    finalState (Dropdown.handleKeyDown dom event s) = s
    /\ (forall e, In e (trace (Dropdown.handleKeyDown dom event s)) ->
                  isKeyEffect e = true).
Proof.
  intros dom event s.
  destruct (handleKeyDown_cases dom event s)
    as [H|[H|[[_ H]|[[_ H]|[[_ [_ H]]|[_ [_ H]]]]]]]; rewrite H;
    (split; [reflexivity|]); unfold trace; simpl fst; intros e Hin.
  - contradiction.
  - contradiction.
  - contradiction.
  - apply in_app_or in Hin. destruct Hin as [Hin|[<-|[]]]; [|reflexivity].
    apply focusTrace_In in Hin. destruct Hin as [el [-> _]]. reflexivity.
  - destruct Hin as [<-|[<-|[]]]; reflexivity.
  - destruct Hin as [<-|Hin]; [reflexivity|].
    apply focusTrace_In in Hin. destruct Hin as [el [-> _]]. reflexivity.
Qed.

(** X2: a keydown makes at most one [focus] call, and only on an
    element that [qsa] finds under the registered menu for
    [itemSelector] and that has a [focus] method; it does so only for
    ArrowUp, or for ArrowDown while open. *)
Theorem keydown_focus_discipline :
  forall (dom : Dom) (event : Event) (s : Instance),
    List.length (focusCalls (Dropdown.handleKeyDown dom event s)) <= 1
    /\ (forall el, In (EFocus el) (trace (Dropdown.handleKeyDown dom event s)) ->
          (key event = "ArrowUp" \/ (key event = "ArrowDown" /\ show (props s) = true))
          /\ hasFocusMethod dom el = true
          /\ exists m, menu s = Some m
                       /\ In el (qsa dom m (itemSelector (props s)))).
Proof.
  intros dom event s.
  destruct (handleKeyDown_cases dom event s)
    as [H|[H|[[_ H]|[[Hk H]|[[_ [_ H]]|[Hk [Hs H]]]]]]]; rewrite H;
    unfold focusCalls, trace; simpl fst.
  - split; [simpl; lia|]. intros el [].
  - split; [simpl; lia|]. intros el [].
  - split; [simpl; lia|]. intros el [].
  - split.
    + rewrite filter_app, focusTrace_all_focus. simpl. rewrite app_nil_r.
      apply focusTrace_length.
    + intros el Hin. apply in_app_or in Hin.
      destruct Hin as [Hin|[Hin|[]]]; [|discriminate].
      apply focusTrace_In in Hin. destruct Hin as [el' [Heq [Hx Hf]]].
      inversion Heq; subst el'.
      split; [left; exact Hk|]. split; [exact Hf|].
      exact (nextFocused_is_item _ _ _ _ _ Hx).
  - split; [simpl; lia|].
    intros el [Hin|[Hin|[]]]; discriminate.
  - split.
    + simpl. rewrite focusTrace_all_focus. apply focusTrace_length.
    + intros el [Hin|Hin]; [discriminate|].
      apply focusTrace_In in Hin. destruct Hin as [el' [Heq [Hx Hf]]].
      inversion Heq; subst el'.
      split; [right; split; assumption|]. split; [exact Hf|].
      exact (nextFocused_is_item _ _ _ _ _ Hx).
Qed.

(** X3: the only toggle request a keydown can make is the opening one:
    any [onToggle] call in its trace comes from ArrowDown on a closed
    dropdown and asks for [true]; on an open dropdown no key reaches
    [onToggle], so the keyboard cannot request a close. *)
Theorem keydown_requests_only_open :
  forall (dom : Dom) (event : Event) (s : Instance),
    (forall args, In (EOnToggle args) (trace (Dropdown.handleKeyDown dom event s)) ->
       key event = "ArrowDown" /\ show (props s) = false
       /\ args = [ABool true; AEvent event])
    /\ (show (props s) = true ->
        filter isToggleCall (trace (Dropdown.handleKeyDown dom event s)) = []).
Proof.
  intros dom event s.
  destruct (handleKeyDown_cases dom event s)
    as [H|[H|[[_ H]|[[_ H]|[[Hk [Hs H]]|[_ [_ H]]]]]]]; rewrite H;
    unfold trace; simpl fst.
  - split; [intros args []|reflexivity].
  - split; [intros args []|reflexivity].
  - split; [intros args []|reflexivity].
  - assert (Hnone : forall e, In e (focusTrace dom (nextFocused dom s (target event) (-1))
                                      ++ [EPreventDefault event]) ->
                              isToggleCall e = false).
    { intros e Hin. apply in_app_or in Hin. destruct Hin as [Hin|[<-|[]]]; [|reflexivity].
      apply focusTrace_In in Hin. destruct Hin as [el [-> _]]. reflexivity. }
    split.
    + intros args Hin. apply Hnone in Hin. discriminate.
    + intros _. rewrite filter_app. simpl. rewrite app_nil_r.
      destruct (nextFocused dom s (target event) (-1)) as [| |el]; simpl; try reflexivity.
      destruct (hasFocusMethod dom el); reflexivity.
  - split.
    + intros args [Hin|[Hin|[]]]; [discriminate|].
      inversion Hin. repeat split; assumption.
    + intros Hopen. congruence.
  - split.
    + intros args [Hin|Hin]; [discriminate|].
      apply focusTrace_In in Hin. destruct Hin as [el [Heq _]]. discriminate.
    + intros _. simpl.
      destruct (nextFocused dom s (target event) 1) as [| |el]; simpl; try reflexivity.
      destruct (hasFocusMethod dom el); reflexivity.
Qed.

(** X4: [preventDefault] is called only on the event being handled and
    only when its key is ArrowUp or ArrowDown; every other key, Escape
    and Tab included, keeps its default action. *)
Theorem keydown_preventDefault_only_arrows :
  forall (dom : Dom) (event ev : Event) (s : Instance),
    In (EPreventDefault ev) (trace (Dropdown.handleKeyDown dom event s)) ->
    ev = event /\ (key event = "ArrowUp" \/ key event = "ArrowDown").
Proof.
  intros dom event ev s.
  destruct (handleKeyDown_cases dom event s)
    as [H|[H|[[_ H]|[[Hk H]|[[Hk [_ H]]|[Hk [_ H]]]]]]]; rewrite H;
    unfold trace; simpl fst; intros Hin.
  - contradiction.
  - contradiction.
  - contradiction.
  - apply in_app_or in Hin. destruct Hin as [Hin|[Hin|[]]].
    + apply focusTrace_In in Hin. destruct Hin as [el [Heq _]]. discriminate.
    + injection Hin as Heq. subst ev. split; [reflexivity|left; exact Hk].
  - destruct Hin as [Hin|[Hin|[]]]; [|discriminate].
    injection Hin as Heq. subst ev. split; [reflexivity|right; exact Hk].
  - destruct Hin as [Hin|Hin].
    + injection Hin as Heq. subst ev. split; [reflexivity|right; exact Hk].
    + apply focusTrace_In in Hin. destruct Hin as [el [Heq _]]. discriminate.
Qed.

Lemma keydown_preventDefault_only_arrows_witness :
  Sample.keydown "ArrowDown" 4 = Sample.keydown "ArrowDown" 4
  /\ (key (Sample.keydown "ArrowDown" 4) = "ArrowUp"
      \/ key (Sample.keydown "ArrowDown" 4) = "ArrowDown").
Proof.
  apply (keydown_preventDefault_only_arrows (Sample.focusOn 4)
           (Sample.keydown "ArrowDown" 4) (Sample.keydown "ArrowDown" 4)
           (Sample.mounted (Some 2) true)).
  left. reflexivity.
Defined.

(** X5: a key other than ArrowUp, ArrowDown, Escape and Tab does
    nothing at all, on any target, once a menu is registered or the
    target is not an input or textarea. *)
Theorem keydown_other_key_noop :
  forall (dom : Dom) (event : Event) (s : Instance),
    key event <> "ArrowUp" -> key event <> "ArrowDown" ->
    key event <> "Escape" -> key event <> "Tab" ->
    menu s <> None \/ Js.test_input_textarea (tagName dom (target event)) = false ->
    Dropdown.handleKeyDown dom event s = ([], Return tt s).
Proof.
  intros dom event s Hup Hdown Hesc Htab Hreg.
  destruct (inputGuard_cases dom event s) as [Hg|[Hg|Hg]].
  - apply handleKeyDown_ignored. exact Hg.
  - rewrite (handleKeyDown_dispatched dom event s Hg).
    apply keySwitch_other; assumption.
  - exfalso.
    destruct (Js.test_input_textarea (tagName dom (target event))) eqn:Hin.
    + rewrite (inputGuard_input dom event s Hin) in Hg.
      destruct (String.eqb (key event) " "); [discriminate|].
      destruct (String.eqb (key event) "Escape"); [discriminate|].
      destruct (menu s) as [m|]; [discriminate|].
      destruct Hreg as [Hreg|Hreg]; [apply Hreg; reflexivity|discriminate].
    + rewrite (inputGuard_not_input dom event s Hin) in Hg. discriminate.
Qed.

Lemma keydown_other_key_noop_witness :
  Dropdown.handleKeyDown (Sample.focusOn 7) (Sample.keydown "Enter" 7)
    (Sample.mounted (Some 2) true)
  = ([], Return tt (Sample.mounted (Some 2) true)).
Proof.
  apply (keydown_other_key_noop (Sample.focusOn 7) (Sample.keydown "Enter" 7)
           (Sample.mounted (Some 2) true)); try discriminate.
  left. discriminate.
Defined.

(** X6: on a target that is not an input or textarea the guard is
    skipped without reading the menu, so the handler goes to the switch
    and, Escape and Tab apart, returns even when no menu was ever
    registered: an arrow key then calls [preventDefault] and, if the
    dropdown is shown or the key is ArrowUp, nothing else. *)
Theorem keydown_outside_inputs :
  forall (dom : Dom) (event : Event) (s : Instance),
    Js.test_input_textarea (tagName dom (target event)) = false ->
    Dropdown.handleKeyDown dom event s = Dropdown.keySwitch dom event s
    /\ (key event <> "Escape" -> key event <> "Tab" ->
        returns (Dropdown.handleKeyDown dom event s) = true)
    /\ (menu s = None ->
        key event = "ArrowUp" \/ (key event = "ArrowDown" /\ show (props s) = true) ->
        Dropdown.handleKeyDown dom event s = ([EPreventDefault event], Return tt s)).
Proof.
  intros dom event s Hin.
  pose proof (inputGuard_not_input dom event s Hin) as Hg.
  pose proof (handleKeyDown_dispatched dom event s Hg) as Hd.
  split; [exact Hd|]. split.
  - intros Hesc Htab. rewrite Hd.
    destruct (String.eqb_spec (key event) "ArrowUp") as [Hup|Hup].
    { rewrite (keySwitch_ArrowUp dom event s Hup). reflexivity. }
    destruct (String.eqb_spec (key event) "ArrowDown") as [Hdown|Hdown].
    { destruct (show (props s)) eqn:Hs.
      - rewrite (keySwitch_ArrowDown_open dom event s Hdown Hs). reflexivity.
      - rewrite (keySwitch_ArrowDown_closed dom event s Hdown Hs). reflexivity. }
    rewrite (keySwitch_other dom event s Hup Hdown Hesc Htab). reflexivity.
  - intros Hm [Hk|[Hk Hs]]; rewrite Hd.
    + rewrite (keySwitch_ArrowUp dom event s Hk).
      unfold nextFocused. rewrite Hm. reflexivity.
    + rewrite (keySwitch_ArrowDown_open dom event s Hk Hs).
      unfold nextFocused. rewrite Hm. reflexivity.
Qed.

Lemma keydown_outside_inputs_witness :
  Dropdown.handleKeyDown (Sample.focusOn 1) (Sample.keydown "ArrowUp" 1)
    (Sample.mounted None true)
  = ([EPreventDefault (Sample.keydown "ArrowUp" 1)], Return tt (Sample.mounted None true)).
Proof.
  pose proof (keydown_outside_inputs (Sample.focusOn 1) (Sample.keydown "ArrowUp" 1)
                (Sample.mounted None true) eq_refl) as [_ [_ H]].
  apply H; [reflexivity|left; reflexivity].
Defined.

Lemma keydown_focus_discipline_witness :
  (key (Sample.keydown "ArrowDown" 4) = "ArrowUp"
   \/ (key (Sample.keydown "ArrowDown" 4) = "ArrowDown"
       /\ show (props (Sample.mounted (Some 2) true)) = true))
  /\ hasFocusMethod (Sample.focusOn 4) 5 = true
  /\ exists m, menu (Sample.mounted (Some 2) true) = Some m
               /\ In 5 (qsa (Sample.focusOn 4) m
                          (itemSelector (props (Sample.mounted (Some 2) true)))).
Proof.
  apply (keydown_focus_discipline (Sample.focusOn 4) (Sample.keydown "ArrowDown" 4)
           (Sample.mounted (Some 2) true)).
  right. left. reflexivity.
Defined.

Lemma keydown_requests_only_open_witness :
  key (Sample.keydown "ArrowDown" 1) = "ArrowDown"
  /\ show (props (Sample.mounted (Some 2) false)) = false
  /\ [ABool true; AEvent (Sample.keydown "ArrowDown" 1)]
     = [ABool true; AEvent (Sample.keydown "ArrowDown" 1)].
Proof.
  apply (keydown_requests_only_open (Sample.focusOn 1) (Sample.keydown "ArrowDown" 1)
           (Sample.mounted (Some 2) false)).
  right. left. reflexivity.
Defined.

(** ** Moving through the items *)

Lemma indexOfFrom_nth (items : list Elem) :
  forall (i : nat) (x : Elem) (k : Z),
    NoDup items -> nth_error items i = Some x ->
    indexOfFrom items x k = (k + Z.of_nat i)%Z.
Proof.
  induction items as [|y rest IH]; intros i x k Hnd Hnth.
  - destruct i; discriminate.
  - inversion Hnd as [|y' rest' Hnotin Hnd']; subst.
    destruct i as [|i]; simpl in *.
    + injection Hnth as ->. rewrite Nat.eqb_refl. lia.
    + destruct (Nat.eqb_spec y x) as [->|Hne].
      * exfalso. apply Hnotin. exact (nth_error_In _ _ Hnth).
      * rewrite (IH i x (k + 1)%Z Hnd' Hnth). lia.
Qed.

Lemma indexOf_nth (items : list Elem) (i : nat) (x : Elem) :
  NoDup items -> nth_error items i = Some x -> indexOf items x = Z.of_nat i.
Proof.
  intros Hnd Hnth. unfold indexOf. rewrite (indexOfFrom_nth items i x 0 Hnd Hnth). lia.
Qed.

Lemma item_nth (items : list Elem) (i : nat) :
  item items (Z.of_nat i)
  = match nth_error items i with Some e => JElem e | None => JUndefined end.
Proof.
  unfold item. destruct (Z.ltb_spec (Z.of_nat i) 0); [lia|].
  rewrite Nat2Z.id. reflexivity.
Qed.

Lemma nextFocused_forward (dom : Dom) (s : Instance) (m current : Elem) (i : nat) :
  menu s = Some m ->
  NoDup (qsa dom m (itemSelector (props s))) ->
  nth_error (qsa dom m (itemSelector (props s))) i = Some current ->
  nextFocused dom s current 1
  = match nth_error (qsa dom m (itemSelector (props s))) (S i) with
    | Some e => JElem e
    | None => JUndefined
    end.
Proof.
  intros Hm Hnd Hnth. unfold nextFocused. rewrite Hm.
  rewrite (indexOf_nth _ _ _ Hnd Hnth).
  assert (Hlt : i < List.length (qsa dom m (itemSelector (props s)))).
  { apply nth_error_Some. rewrite Hnth. discriminate. }
  replace (Z.max 0 (Z.min (Z.of_nat i + 1)
                      (Z.of_nat (List.length (qsa dom m (itemSelector (props s)))))))
    with (Z.of_nat (S i)) by lia.
  apply item_nth.
Qed.

Lemma nextFocused_backward (dom : Dom) (s : Instance) (m current : Elem) (i : nat) :
  menu s = Some m ->
  NoDup (qsa dom m (itemSelector (props s))) ->
  nth_error (qsa dom m (itemSelector (props s))) i = Some current ->
  nextFocused dom s current (-1)
  = match nth_error (qsa dom m (itemSelector (props s))) (Nat.pred i) with
    | Some e => JElem e
    | None => JUndefined
    end.
Proof.
  intros Hm Hnd Hnth. unfold nextFocused. rewrite Hm.
  rewrite (indexOf_nth _ _ _ Hnd Hnth).
  assert (Hlt : i < List.length (qsa dom m (itemSelector (props s)))).
  { apply nth_error_Some. rewrite Hnth. discriminate. }
  replace (Z.max 0 (Z.min (Z.of_nat i + -1)
                      (Z.of_nat (List.length (qsa dom m (itemSelector (props s)))))))
    with (Z.of_nat (Nat.pred i)) by lia.
  apply item_nth.
Qed.





(** X9: stepping forward and back returns where it started: when [qsa]
    returns each item once and ArrowDown from an item focuses [next],
    then ArrowUp from [next] focuses that item; and when ArrowUp from an
    item focuses a different item [prev], ArrowDown from [prev] focuses
    it back. *)
Theorem next_previous_round_trip :
  forall (dom : Dom) (s : Instance) (m current : Elem),
    menu s = Some m ->
    NoDup (qsa dom m (itemSelector (props s))) ->
    In current (qsa dom m (itemSelector (props s))) ->
    (forall next,
        Dropdown.getNextFocusedChild dom current 1 s = ([], Return (JElem next) s) ->
        Dropdown.getNextFocusedChild dom next (-1) s = ([], Return (JElem current) s)) /\
    (forall prev,
        prev <> current ->
        Dropdown.getNextFocusedChild dom current (-1) s = ([], Return (JElem prev) s) ->
        Dropdown.getNextFocusedChild dom prev 1 s = ([], Return (JElem current) s)).
Proof.
  intros dom s m current Hm Hnd Hin.
  destruct (In_nth_error _ _ Hin) as [i Hnth].
  split.
  - intros next Hrun. rewrite getNextFocusedChild_run in Hrun.
    rewrite (nextFocused_forward dom s m current i Hm Hnd Hnth) in Hrun.
    destruct (nth_error (qsa dom m (itemSelector (props s))) (S i)) as [e|] eqn:E;
      [|discriminate].
    assert (e = next) by (inversion Hrun; reflexivity). subst e.
    rewrite getNextFocusedChild_run.
    rewrite (nextFocused_backward dom s m next (S i) Hm Hnd E).
    simpl Nat.pred. rewrite Hnth. reflexivity.
  - intros prev Hne Hrun. rewrite getNextFocusedChild_run in Hrun.
    rewrite (nextFocused_backward dom s m current i Hm Hnd Hnth) in Hrun.
    destruct i as [|i].
    + simpl Nat.pred in Hrun. rewrite Hnth in Hrun.
      exfalso. apply Hne. inversion Hrun. reflexivity.
    + simpl Nat.pred in Hrun.
      destruct (nth_error (qsa dom m (itemSelector (props s))) i) as [e|] eqn:E;
        [|discriminate].
      assert (e = prev) by (inversion Hrun; reflexivity). subst e.
      rewrite getNextFocusedChild_run.
      rewrite (nextFocused_forward dom s m prev i Hm Hnd E).
      rewrite Hnth. reflexivity.
Qed.

Lemma next_previous_round_trip_witness :
  Dropdown.getNextFocusedChild (Sample.focusOn 4) 5 (-1) (Sample.mounted (Some 2) true)
  = ([], Return (JElem 4) (Sample.mounted (Some 2) true)).
Proof.
  assert (Hnd : NoDup [3; 4; 5]).
  { repeat constructor; simpl; intuition discriminate. }
  assert (Hin : In 4 [3; 4; 5]) by (right; left; reflexivity).
  pose proof (next_previous_round_trip (Sample.focusOn 4) (Sample.mounted (Some 2) true)
                2 4 eq_refl Hnd Hin) as [H _].
  exact (H 5 eq_refl).
Defined.

(** ** Mounting and updating as a whole *)

Lemma render_frame (dom : Dom) (s : Instance) (ctx : DropdownContext) (s' : Instance) :
  Dropdown.render dom s = ([], Return ctx s') ->
  props s' = props s /\ menu s' = menu s /\ toggle s' = toggle s
  /\ state s' = Dropdown.set_ctx_popper (popper (state s)) (state s)
  /\ ctx = dropdownContext (state s')
  /\ _focusInDropdown s'
     = if lastShow (state s) && negb (show (props s))
       then match menu s with
            | Some m => contains dom m (activeElement dom)
            | None => _focusInDropdown s
            end
       else _focusInDropdown s.
Proof.
  unfold Dropdown.render, bind, this, ret, assign, throw.
  destruct (lastShow (state s) && negb (show (props s))).
  - destruct (menu s) as [m|] eqn:Hm; simpl; [|discriminate].
    intros H. inversion H; subst. simpl. rewrite Hm. repeat split.
  - simpl. intros H. inversion H; subst. simpl. repeat split.
Qed.

Lemma update_render_throws (before after : Dom) (next : Props)
      (refs : list React.RefCall) (s : Instance) (e : Exn) :
  Dropdown.render before (React.receive next s) = ([], Throw e (React.receive next s)) ->
  React.update before after next refs s = ([], Throw e (React.receive next s)).
Proof.
  intros H. unfold React.update, bind. simpl. rewrite H. reflexivity.
Qed.

Lemma runRefs_effects (refs : list React.RefCall) :
  forall s : Instance,
    Forall (fun e => isLifecycleEffect e = true) (trace (React.runRefs refs s))
    /\ (show (props s) = false ->
        filter isPositioning (trace (React.runRefs refs s)) = []).
Proof.
  induction refs as [|r rest IH]; intros s.
  - split; [constructor|reflexivity].
  - assert (Hr : exists t1 s1,
               React.runRef r s = (t1, Return tt s1)
               /\ props s1 = props s
               /\ Forall (fun e => isLifecycleEffect e = true) t1
               /\ (show (props s) = false -> filter isPositioning t1 = [])).
    { assert (Hup : forall s0 : Instance,
                 exists t,
                   (if show (props s0) then Dropdown.updatePosition else ret tt) s0
                   = (t, Return tt s0)
                   /\ Forall (fun e => isLifecycleEffect e = true) t
                   /\ (show (props s0) = false -> t = [])).
      { intros s0. destruct (show (props s0)).
        - unfold Dropdown.updatePosition, bind, this, ret, emit.
          destruct (toggle s0) as [t|]; [destruct (menu s0) as [m|]|]; simpl;
            eexists; (split; [reflexivity|]); split;
              try discriminate; repeat constructor.
        - exists []. repeat split. constructor. }
      destruct r as [el|el]; simpl.
      - destruct (Hup (Dropdown.set_menu el s)) as [t [Hrun [Hall Hnone]]].
        exists t, (Dropdown.set_menu el s). split.
        { unfold Dropdown.setMenuElement.
          apply (bind_return _ _ s (Dropdown.set_menu el s) [] t tt); [reflexivity|].
          apply (bind_return _ _ _ (Dropdown.set_menu el s) [] t (Dropdown.set_menu el s));
            [reflexivity|exact Hrun]. }
        split; [reflexivity|]. split; [exact Hall|].
        intros Hs. rewrite (Hnone Hs). reflexivity.
      - destruct (Hup (Dropdown.set_toggle el s)) as [t [Hrun [Hall Hnone]]].
        exists ((match el with Some _ => [ESetState UToggleId] | None => [] end) ++ t),
          (Dropdown.set_toggle el s). split.
        { unfold Dropdown.setToggleElement.
          apply (bind_return _ _ s (Dropdown.set_toggle el s) [] _ tt); [reflexivity|].
          apply (bind_return _ _ _ (Dropdown.set_toggle el s) _ t tt).
          - destruct el; reflexivity.
          - apply (bind_return _ _ _ (Dropdown.set_toggle el s) [] t
                     (Dropdown.set_toggle el s)); [reflexivity|exact Hrun]. }
        split; [reflexivity|]. split.
        + apply Forall_app. split; [destruct el; repeat constructor|exact Hall].
        + intros Hs. rewrite (Hnone Hs). destruct el; reflexivity. }
    destruct Hr as [t1 [s1 [Hrun1 [Hp1 [Hall1 Hnone1]]]]].
    destruct (IH s1) as [Hall2 Hnone2].
    destruct (React.runRefs rest s1) as [t2 o2] eqn:Hrun2.
    assert (Hrun : React.runRefs (r :: rest) s = (t1 ++ t2, o2)).
    { simpl React.runRefs. apply (bind_return _ _ s s1 t1 t2 tt); assumption. }
    rewrite Hrun. unfold trace in *. simpl fst in *. split.
    + apply Forall_app. split; assumption.
    + intros Hs. rewrite filter_app, (Hnone1 Hs), Hnone2; [reflexivity|].
      rewrite Hp1. exact Hs.
Qed.

Lemma componentDidUpdate_effects (dom : Dom) (prev : Props) (s : Instance) :
  exists t s',
    Dropdown.componentDidUpdate dom prev s = (t, Return tt s')
    /\ Forall (fun e => isLifecycleEffect e = true) t
    /\ (show (props s) = false -> filter isPositioning t = [])
    /\ (_focusInDropdown s' = false \/ s' = s)
    /\ (show (props s) = show prev -> t = [] /\ s' = s).
Proof.
  destruct (show (props s)) eqn:Hshow; destruct (show prev) eqn:Hprev.
  - exists [], s. unfold Dropdown.componentDidUpdate, bind, this, ret.
    rewrite Hshow, Hprev. simpl. repeat split; auto.
  - unfold Dropdown.componentDidUpdate, bind, this, ret.
    rewrite Hshow, Hprev. simpl.
    destruct (updatePosition_run s) as [tp [Hrun _]].
    assert (Hall : Forall (fun e => isLifecycleEffect e = true) tp).
    { revert Hrun. unfold Dropdown.updatePosition, bind, this, ret, emit.
      destruct (toggle s) as [t|]; [destruct (menu s) as [m|]|]; simpl;
        intros H; inversion H; repeat constructor. }
    rewrite Hrun, maybeFocusFirst_run. simpl.
    eexists; exists s. split; [reflexivity|]. split.
    + rewrite app_nil_r. apply Forall_app. split; [exact Hall|].
      apply Forall_forall. intros e Hin. unfold firstFocusTrace in Hin.
      destruct (menu s) as [m|]; [|contradiction].
      destruct (matches dom m "[role=menu]"); [|contradiction].
      apply focusTrace_In in Hin. destruct Hin as [el [-> _]]. reflexivity.
    + split; [discriminate|]. split; [right; reflexivity|discriminate].
  - rewrite (componentDidUpdate_closing dom prev s Hshow Hprev).
    destruct (_focusInDropdown s) eqn:Hflag.
    + eexists; eexists. split; [reflexivity|].
      assert (Hall : forall e, In e (toggleFocusTrace dom s) ->
                               isLifecycleEffect e = true /\ isPositioning e = false).
      { unfold toggleFocusTrace. intros e.
        destruct (toggle s) as [t|]; [destruct (hasFocusMethod dom t)|]; simpl;
          try contradiction.
        intros [<-|[]]. split; reflexivity. }
      split; [apply Forall_forall; intros e Hin; apply Hall; exact Hin|].
      split.
      * intros _. unfold toggleFocusTrace.
        destruct (toggle s) as [t|]; [destruct (hasFocusMethod dom t)|]; reflexivity.
      * split; [left; reflexivity|discriminate].
    + exists [], s. repeat split; auto.
  - exists [], s. unfold Dropdown.componentDidUpdate, bind, this, ret.
    rewrite Hshow, Hprev. simpl. repeat split; auto.
Qed.

(** An update either stops in [render], before any outside call, or runs
    the ref callbacks and [componentDidUpdate] to the end. *)
Lemma update_cases (before after : Dom) (next : Props)
      (refs : list React.RefCall) (s : Instance) :
  (exists e,
      Dropdown.render before (React.receive next s)
      = ([], Throw e (React.receive next s))
      /\ React.update before after next refs s = ([], Throw e (React.receive next s)))
  \/ (exists ctx s2 t s3 t' s4,
         Dropdown.render before (React.receive next s) = ([], Return ctx s2)
         /\ React.runRefs refs s2 = (t, Return tt s3)
         /\ Dropdown.componentDidUpdate after (props s) s3 = (t', Return tt s4)
         /\ React.update before after next refs s = (t ++ t', Return tt s4)).
Proof.
  destruct (render_cases before (React.receive next s))
    as [[ctx [s2 [Hrender _]]]|[e He]].
  - right.
    destruct (runRefs_run refs s2) as [t [s3 [Hrefs _]]].
    destruct (componentDidUpdate_frame after (props s) s3) as [t' [s4 [Hcdu _]]].
    exists ctx, s2, t, s3, t', s4. repeat split; try assumption.
    exact (update_run _ _ _ _ _ _ _ _ _ _ _ Hrender Hrefs Hcdu).
  - left. exists e. split; [exact He|]. apply update_render_throws. exact He.
Qed.

Lemma mount_run (dom : Dom) (p : Props) (refs : list React.RefCall) :
  exists ctx s2 t s3 t',
    Dropdown.render dom (React.receive p (Dropdown.constructor p)) = ([], Return ctx s2)
    /\ React.runRefs refs s2 = (t, Return tt s3)
    /\ (if show (props s3) then Dropdown.updatePosition else ret tt) s3
       = (t', Return tt s3)
    /\ React.mount dom p refs = (t ++ t', Return tt s3).
Proof.
  destruct (render_steady dom (React.receive p (Dropdown.constructor p)) eq_refl)
    as [ctx [s2 [Hrender _]]].
  destruct (runRefs_run refs s2) as [t [s3 [Hrefs _]]].
  destruct (ifShow_updatePosition_run s3) as [t' [Hmount _]].
  exists ctx, s2, t, s3, t'. repeat split; try assumption.
  unfold React.mount.
  apply (bind_return _ _ _ (React.receive p (Dropdown.constructor p)) [] (t ++ t') tt);
    [reflexivity|].
  apply (bind_return _ _ _ s2 [] (t ++ t') ctx); [exact Hrender|].
  apply (bind_return _ _ _ s3 t t' tt); [exact Hrefs|].
  unfold Dropdown.componentDidMount.
  apply (bind_return _ _ s3 s3 [] t' s3); [reflexivity|exact Hmount].
Qed.

Lemma updatePosition_registered (s : Instance) (t m : Elem) :
  toggle s = Some t -> menu s = Some m ->
  Dropdown.updatePosition s
  = ([EPopperUpdate m t (placement (state s)) (flip (props s))], Return tt s).
Proof.
  intros Ht Hm. unfold Dropdown.updatePosition, bind, this, ret, emit.
  rewrite Ht, Hm. reflexivity.
Qed.

(** X10: everything a mount or an update does outside is a toggle-id
    [setState], a positioner update or a [focus] call: neither ever
    calls [onToggle] or [preventDefault], so the component never
    requests a visibility change on its own while rendering. *)
Theorem lifecycle_never_requests :
  forall (before after : Dom) (p : Props) (refs : list React.RefCall) (s : Instance),
    Forall (fun e => isLifecycleEffect e = true) (trace (React.mount before p refs))
    /\ Forall (fun e => isLifecycleEffect e = true)
         (trace (React.update before after p refs s))
    /\ filter isToggleCall (trace (React.mount before p refs)) = []
    /\ filter isToggleCall (trace (React.update before after p refs s)) = [].
Proof.
  intros before after p refs s.
  assert (Hnone : forall t, Forall (fun e => isLifecycleEffect e = true) t ->
                            filter isToggleCall t = []).
  { induction t as [|e t IH]; intros Hall; [reflexivity|].
    inversion Hall as [|e' t' He Ht]; subst. simpl.
    destruct e; try discriminate; simpl; apply IH; exact Ht. }
  assert (Hmount : Forall (fun e => isLifecycleEffect e = true)
                     (trace (React.mount before p refs))).
  { destruct (mount_run before p refs) as [ctx [s2 [t [s3 [t' [_ [Hrefs [Hdid Hrun]]]]]]]].
    rewrite Hrun. unfold trace. simpl fst. apply Forall_app. split.
    - pose proof (proj1 (runRefs_effects refs s2)) as H. rewrite Hrefs in H. exact H.
    - revert Hdid. destruct (show (props s3)).
      + unfold Dropdown.updatePosition, bind, this, ret, emit.
        destruct (toggle s3) as [tg|]; [destruct (menu s3) as [m|]|]; simpl;
          intros H; inversion H; repeat constructor.
      + intros H. inversion H. constructor. }
  assert (Hupdate : Forall (fun e => isLifecycleEffect e = true)
                      (trace (React.update before after p refs s))).
  { destruct (update_cases before after p refs s)
      as [[e [_ Hrun]]|[ctx [s2 [t [s3 [t' [s4 [_ [Hrefs [Hcdu Hrun]]]]]]]]]];
      rewrite Hrun; unfold trace; simpl fst; [constructor|].
    apply Forall_app. split.
    - pose proof (proj1 (runRefs_effects refs s2)) as H. rewrite Hrefs in H. exact H.
    - destruct (componentDidUpdate_effects after (props s) s3)
        as [t0 [s0 [Hrun0 [Hall _]]]].
      rewrite Hcdu in Hrun0. inversion Hrun0; subst. exact Hall. }
  split; [exact Hmount|]. split; [exact Hupdate|].
  split; apply Hnone; assumption.
Qed.

(** X11: the positioner is consulted only while the dropdown is shown:
    mounting with [show] false, or any update whose new props have
    [show] false, makes no [popper.update] call, whatever elements the
    ref callbacks register. *)
Theorem positioner_only_while_shown :
  forall (before after : Dom) (p : Props) (refs : list React.RefCall) (s : Instance),
    show p = false ->
    filter isPositioning (trace (React.mount before p refs)) = []
    /\ filter isPositioning (trace (React.update before after p refs s)) = [].
Proof.
  intros before after p refs s Hs. split.
  - destruct (mount_run before p refs)
      as [ctx [s2 [t [s3 [t' [Hrender [Hrefs [Hdid Hrun]]]]]]]].
    destruct (render_frame _ _ _ _ Hrender) as [Hp2 _].
    destruct (runRefs_run refs s2) as [t0 [s0 [Hrun0 [_ [Hp3 _]]]]].
    rewrite Hrefs in Hrun0. inversion Hrun0; subst t0 s0.
    assert (Hs3 : show (props s3) = false) by (rewrite Hp3, Hp2; exact Hs).
    assert (Hs2 : show (props s2) = false) by (rewrite Hp2; exact Hs).
    rewrite Hs3 in Hdid. inversion Hdid; subst t'.
    rewrite Hrun. unfold trace. simpl fst. rewrite app_nil_r.
    pose proof (proj2 (runRefs_effects refs s2) Hs2) as H.
    rewrite Hrefs in H. exact H.
  - destruct (update_cases before after p refs s)
      as [[e [_ Hrun]]|[ctx [s2 [t [s3 [t' [s4 [Hrender [Hrefs [Hcdu Hrun]]]]]]]]]];
      rewrite Hrun; unfold trace; simpl fst; [reflexivity|].
    destruct (render_frame _ _ _ _ Hrender) as [Hp2 _].
    destruct (runRefs_run refs s2) as [t0 [s0 [Hrun0 [_ [Hp3 _]]]]].
    rewrite Hrefs in Hrun0. inversion Hrun0; subst t0 s0.
    assert (Hs3 : show (props s3) = false) by (rewrite Hp3, Hp2; exact Hs).
    assert (Hs2 : show (props s2) = false) by (rewrite Hp2; exact Hs).
    rewrite filter_app.
    pose proof (proj2 (runRefs_effects refs s2) Hs2) as H.
    rewrite Hrefs in H. unfold trace in H. simpl fst in H. rewrite H.
    destruct (componentDidUpdate_effects after (props s) s3)
      as [t1 [s1 [Hrun1 [_ [Hnone _]]]]].
    rewrite Hcdu in Hrun1. inversion Hrun1; subst. exact (Hnone Hs3).
Qed.

Lemma positioner_only_while_shown_witness :
  filter isPositioning
    (trace (React.mount (Sample.focusOn 0) (Sample.propsOf None false false)
              [React.RefToggle (Some 1); React.RefMenu (Some 2)])) = []
  /\ filter isPositioning
       (trace (React.update (Sample.focusOn 4) (Sample.focusOn 0)
                 (Sample.propsOf None false false)
                 [React.RefToggle (Some 1); React.RefMenu (Some 2)]
                 (Sample.mounted (Some 2) true))) = [].
Proof.
  apply (positioner_only_while_shown (Sample.focusOn 4) (Sample.focusOn 0)
           (Sample.propsOf None false false)
           [React.RefToggle (Some 1); React.RefMenu (Some 2)]
           (Sample.mounted (Some 2) true)).
  reflexivity.
Defined.


(** X13: a mount with [show] true that ends with a toggle and a menu
    registered finishes with a [popper.update] call from
    [componentDidMount], with the menu as element, the toggle as
    target, the placement derived from the mounted props and their
    [flip] flag. *)
Theorem mount_shown_positions :
  forall (dom : Dom) (p : Props) (refs : list React.RefCall) (t m : Elem),
    show p = true ->
    toggle (finalState (React.mount dom p refs)) = Some t ->
    menu (finalState (React.mount dom p refs)) = Some m ->
    exists before,
      trace (React.mount dom p refs)
      = before ++ [EPopperUpdate m t
                     (placement (Dropdown.getDerivedStateFromProps p
                                   (state (Dropdown.constructor p))))
                     (flip p)].
Proof.
  intros dom p refs t m Hs.
  destruct (mount_run dom p refs)
    as [ctx [s2 [t0 [s3 [t' [Hrender [Hrefs [Hdid Hrun]]]]]]]].
  destruct (render_frame _ _ _ _ Hrender) as [Hp2 [_ [_ [Hst2 _]]]].
  destruct (runRefs_run refs s2) as [t1 [s1 [Hrun1 [_ [Hp3 [Hst3 _]]]]]].
  rewrite Hrefs in Hrun1. inversion Hrun1; subst t1 s1.
  rewrite Hrun. unfold finalState, trace. simpl. intros Ht Hm.
  assert (Hs3 : show (props s3) = true) by (rewrite Hp3, Hp2; exact Hs).
  rewrite Hs3, (updatePosition_registered s3 t m Ht Hm) in Hdid.
  inversion Hdid; subst t'.
  exists t0. rewrite Hst3, Hst2, Hp3, Hp2. reflexivity.
Qed.

Lemma mount_shown_positions_witness :
  exists before,
    trace (React.mount (Sample.focusOn 0) (Sample.propsOf (Some "up") true true)
             [React.RefToggle (Some 1); React.RefMenu (Some 2)])
    = before ++ [EPopperUpdate 2 1
                   (placement (Dropdown.getDerivedStateFromProps
                                 (Sample.propsOf (Some "up") true true)
                                 (state (Dropdown.constructor
                                           (Sample.propsOf (Some "up") true true)))))
                   (flip (Sample.propsOf (Some "up") true true))].
Proof.
  apply (mount_shown_positions (Sample.focusOn 0) (Sample.propsOf (Some "up") true true)
           [React.RefToggle (Some 1); React.RefMenu (Some 2)] 1 2); reflexivity.
Defined.

(** X14: being settled is kept by every update that returns: starting
    from a settled instance, the instance after the update carries the
    new props, its context the new [show], its focus flag is down, and
    [lastShow] holds the [show] of the props before. *)
Theorem update_keeps_settled :
  forall (before after : Dom) (next : Props) (refs : list React.RefCall) (s : Instance),
    settled s ->
    let r := React.update before after next refs s in
    returns r = true ->
    settled (finalState r)
    /\ props (finalState r) = next
    /\ lastShow (state (finalState r)) = show (props s).
Proof.
  intros before after next refs s [Hctx Hflag] r Hret.
  destruct (update_cases before after next refs s)
    as [[e [_ Hrun]]|[ctx [s2 [t [s3 [t' [s4 [Hrender [Hrefs [Hcdu Hrun]]]]]]]]]];
    subst r; rewrite Hrun in *; [discriminate|].
  destruct (render_frame _ _ _ _ Hrender) as [Hp2 [_ [_ [Hst2 [_ Hf2]]]]].
  destruct (runRefs_run refs s2) as [t0 [s0 [Hrun0 [_ [Hp3 [Hst3 Hf3]]]]]].
  rewrite Hrefs in Hrun0. inversion Hrun0; subst t0 s0.
  destruct (componentDidUpdate_frame after (props s) s3) as [t1 [s1 [Hrun1 [Hp4 Hst4]]]].
  rewrite Hcdu in Hrun1. inversion Hrun1; subst t1 s1.
  unfold finalState. simpl snd.
  assert (Hprops : props s4 = next) by (rewrite Hp4, Hp3, Hp2; reflexivity).
  split; [|split].
  - split.
    + rewrite Hst4, Hst3, Hst2, Hprops. reflexivity.
    + simpl in Hf2. rewrite Hctx in Hf2.
      destruct (show (props s) && negb (show next)) eqn:Hcond.
      * apply andb_true_iff in Hcond. destruct Hcond as [Hopen Hclose].
        apply negb_true_iff in Hclose.
        assert (Hs3 : show (props s3) = false) by (rewrite Hp3, Hp2; exact Hclose).
        rewrite (componentDidUpdate_closing after (props s) s3 Hs3 Hopen) in Hcdu.
        destruct (_focusInDropdown s3) eqn:Hf; inversion Hcdu; subst;
          [reflexivity|exact Hf].
      * destruct (componentDidUpdate_effects after (props s) s3)
          as [t1 [s1 [Hrun1' [_ [_ [[Hdown|Hsame] _]]]]]];
          rewrite Hcdu in Hrun1';
          assert (Heq : s4 = s1) by (inversion Hrun1'; reflexivity);
          rewrite Heq.
        -- exact Hdown.
        -- rewrite Hsame, Hf3, Hf2. exact Hflag.
  - exact Hprops.
  - rewrite Hst4, Hst3, Hst2. simpl. exact Hctx.
Qed.

Lemma update_keeps_settled_witness :
  settled (finalState (React.update (Sample.focusOn 4) (Sample.focusOn 0)
                         (Sample.propsOf None false false) [React.RefMenu None]
                         (Sample.mounted (Some 2) true)))
  /\ props (finalState (React.update (Sample.focusOn 4) (Sample.focusOn 0)
                          (Sample.propsOf None false false) [React.RefMenu None]
                          (Sample.mounted (Some 2) true)))
     = Sample.propsOf None false false
  /\ lastShow (state (finalState (React.update (Sample.focusOn 4) (Sample.focusOn 0)
                                    (Sample.propsOf None false false) [React.RefMenu None]
                                    (Sample.mounted (Some 2) true))))
     = show (props (Sample.mounted (Some 2) true)).
Proof.
  apply (update_keeps_settled (Sample.focusOn 4) (Sample.focusOn 0)
           (Sample.propsOf None false false) [React.RefMenu None]
           (Sample.mounted (Some 2) true)).
  - split; reflexivity.
  - reflexivity.
Defined.

(** X15: an update that leaves [show] as it was is quiet: from a
    settled instance it returns whether or not a menu is registered,
    [render] takes no focus snapshot, [componentDidUpdate] does
    nothing, no [focus] call is made, and the only outside calls are
    those of the ref callbacks. *)
Theorem steady_update_is_quiet :
  forall (before after : Dom) (next : Props) (refs : list React.RefCall) (s : Instance),
    settled s ->
    show next = show (props s) ->
    let r := React.update before after next refs s in
    returns r = true
    /\ focusCalls r = []
    /\ _focusInDropdown (finalState r) = false
    /\ exists s2, trace r = trace (React.runRefs refs s2)
                  /\ menu s2 = menu s /\ toggle s2 = toggle s /\ props s2 = next.
Proof.
  intros before after next refs s [Hctx Hflag] Hsame r.
  destruct (render_steady before (React.receive next s)) as
    [ctx [s2 [Hrender _]]].
  { simpl. rewrite Hctx, Hsame. apply andb_negb_r. }
  destruct (render_frame _ _ _ _ Hrender) as [Hp2 [Hm2 [Ht2 [_ [_ Hf2]]]]].
  destruct (runRefs_run refs s2) as [t [s3 [Hrefs [Hnf [Hp3 [_ Hf3]]]]]].
  destruct (componentDidUpdate_effects after (props s) s3)
    as [t' [s4 [Hcdu [_ [_ [_ Hquiet]]]]]].
  destruct Hquiet as [Ht' Hs4].
  { rewrite Hp3, Hp2. exact Hsame. }
  subst t' s4.
  assert (Hrun : r = (t ++ [], Return tt s3)).
  { subst r. exact (update_run _ _ _ _ _ _ _ _ _ _ _ Hrender Hrefs Hcdu). }
  rewrite Hrun. unfold returns, finalState, focusCalls, trace. simpl.
  rewrite app_nil_r.
  split; [reflexivity|]. split; [exact Hnf|]. split.
  - rewrite Hf3, Hf2. simpl. rewrite Hctx, Hsame, andb_negb_r. exact Hflag.
  - exists s2. rewrite Hrefs. repeat split; assumption.
Qed.

Lemma steady_update_is_quiet_witness :
  returns (React.update (Sample.focusOn 4) (Sample.focusOn 4)
             (Sample.propsOf (Some "up") true true) [] (Sample.mounted None true))
  = true
  /\ focusCalls (React.update (Sample.focusOn 4) (Sample.focusOn 4)
                   (Sample.propsOf (Some "up") true true) [] (Sample.mounted None true))
     = [].
Proof.
  pose proof (steady_update_is_quiet (Sample.focusOn 4) (Sample.focusOn 4)
                (Sample.propsOf (Some "up") true true) [] (Sample.mounted None true)
                (conj eq_refl eq_refl) eq_refl) as [H1 [H2 _]].
  split; [exact H1|exact H2].
Defined.

(** X16: on a closed-to-open update that ends with a toggle and a menu
    registered, [componentDidUpdate] first asks the positioner (menu as
    element, toggle as target, the placement derived from the new
    props, their [flip] flag) and only then focuses the first item: the
    trace ends with that [popper.update] followed by the focus call, if
    any. *)
Theorem opening_positions_then_focuses :
  forall (before after : Dom) (next : Props) (refs : list React.RefCall)
         (s : Instance) (t m : Elem),
    show (props s) = false ->
    show next = true ->
    let r := React.update before after next refs s in
    toggle (finalState r) = Some t ->
    menu (finalState r) = Some m ->
    exists fromRefs,
      trace r
      = fromRefs
          ++ EPopperUpdate m t
               (placement (Dropdown.getDerivedStateFromProps next (state s)))
               (flip next)
          :: firstFocusTrace after (finalState r)
      /\ filter isFocus fromRefs = [].
Proof.
  intros before after next refs s t m Hclosed Hnext r.
  destruct (render_steady before (React.receive next s)) as
    [ctx [s2 [Hrender _]]].
  { simpl. rewrite Hnext. apply andb_false_r. }
  destruct (render_frame _ _ _ _ Hrender) as [Hp2 [_ [_ [Hst2 _]]]].
  destruct (runRefs_run refs s2) as [t0 [s3 [Hrefs [Hnf [Hp3 [Hst3 _]]]]]].
  assert (Hprops3 : props s3 = next) by (rewrite Hp3, Hp2; reflexivity).
  assert (Hs3 : show (props s3) = true) by (rewrite Hprops3; exact Hnext).
  destruct (componentDidUpdate_opening after (props s) s3 Hs3 Hclosed) as [tp [Hcdu _]].
  assert (Hrun : r = (t0 ++ (tp ++ firstFocusTrace after s3), Return tt s3)).
  { subst r. exact (update_run _ _ _ _ _ _ _ _ _ _ _ Hrender Hrefs Hcdu). }
  assert (Hfinal : finalState r = s3) by (rewrite Hrun; reflexivity).
  rewrite Hfinal. intros Ht Hm.
  assert (Hcdu' : Dropdown.componentDidUpdate after (props s) s3
                  = (EPopperUpdate m t (placement (state s3)) (flip (props s3))
                       :: firstFocusTrace after s3, Return tt s3)).
  { unfold Dropdown.componentDidUpdate, bind, this, ret.
    rewrite Hs3, Hclosed. simpl.
    rewrite (updatePosition_registered s3 t m Ht Hm), maybeFocusFirst_run.
    simpl. rewrite app_nil_r. reflexivity. }
  rewrite Hcdu in Hcdu'. injection Hcdu' as Htrace.
  exists t0. split; [|exact Hnf].
  rewrite Hrun. unfold trace. simpl fst.
  rewrite Htrace, Hst3, Hst2, Hprops3. reflexivity.
Qed.

Lemma opening_positions_then_focuses_witness :
  exists fromRefs,
    trace (React.update (Sample.focusOn 1) (Sample.focusOn 1)
             (Sample.propsOf None false true) [React.RefMenu (Some 2)]
             (Sample.mounted None false))
    = fromRefs
        ++ EPopperUpdate 2 1
             (placement (Dropdown.getDerivedStateFromProps
                           (Sample.propsOf None false true)
                           (state (Sample.mounted None false))))
             (flip (Sample.propsOf None false true))
        :: firstFocusTrace (Sample.focusOn 1)
             (finalState (React.update (Sample.focusOn 1) (Sample.focusOn 1)
                            (Sample.propsOf None false true) [React.RefMenu (Some 2)]
                            (Sample.mounted None false)))
    /\ filter isFocus fromRefs = [].
Proof.
  apply (opening_positions_then_focuses (Sample.focusOn 1) (Sample.focusOn 1)
           (Sample.propsOf None false true) [React.RefMenu (Some 2)]
           (Sample.mounted None false) 1 2); reflexivity.
Defined.

(** ** The tag-name test *)

Lemma toLower_length (s : string) : String.length (Js.toLower s) = String.length s.
Proof.
  induction s as [|c r IH]; simpl; [reflexivity|]. rewrite IH. reflexivity.
Qed.

Lemma toLower_append (a b : string) :
  Js.toLower (String.append a b) = String.append (Js.toLower a) (Js.toLower b).
Proof.
  induction a as [|c r IH]; simpl; [reflexivity|]. rewrite IH. reflexivity.
Qed.

Lemma toLower_substring (s : string) :
  forall m n, Js.toLower (substring m n s) = substring m n (Js.toLower s).
Proof.
  induction s as [|c r IH]; intros m n.
  - destruct m, n; reflexivity.
  - destruct m as [|m].
    + destruct n as [|n]; simpl; [reflexivity|]. rewrite IH. reflexivity.
    + simpl. apply IH.
Qed.

Lemma substring_prefix_append (w post : string) :
  substring 0 (String.length w) (String.append w post) = w.
Proof.
  induction w as [|c r IH]; simpl.
  - destruct post; reflexivity.
  - rewrite IH. reflexivity.
Qed.

Lemma substring_inside_append (pre w post : string) :
  substring (String.length pre) (String.length w)
    (String.append pre (String.append w post)) = w.
Proof.
  induction pre as [|c r IH]; simpl.
  - apply substring_prefix_append.
  - exact IH.
Qed.

Lemma includes_occurrence (pat s : string) :
  pat <> EmptyString ->
  (Js.includes pat s = true <-> exists m, substring m (String.length pat) s = pat).
Proof.
  intros Hne. unfold Js.includes. split.
  - destruct (String.index 0 pat s) as [m|] eqn:E; [|discriminate].
    intros _. exists m. exact (index_correct1 _ _ _ _ E).
  - intros [m Hm]. destruct (String.index 0 pat s) as [k|] eqn:E; [reflexivity|].
    exfalso. exact (index_correct3 0 m pat s E Hne (Nat.le_0_l m) Hm).
Qed.

(** X17: the test [/input|textarea/i] of [handleKeyDown] succeeds
    exactly on the tag names in which some stretch of characters is
    "input" or "textarea" up to the case of ASCII letters: it is not
    anchored, so a tag name that merely contains one of the words, in
    any mix of cases and with anything before or after, is treated as a
    text input. *)
Theorem input_test_occurrence :
  forall tag : string,
    (Js.test_input_textarea tag = true
     <-> exists m w, substring m (String.length w) tag = w
                     /\ (Js.toLower w = "input" \/ Js.toLower w = "textarea"))
    /\ (forall pre w post,
           Js.toLower w = "input" \/ Js.toLower w = "textarea" ->
           Js.test_input_textarea (String.append pre (String.append w post)) = true).
Proof.
  assert (Hback : forall tag m w,
             substring m (String.length w) tag = w ->
             Js.toLower w = "input" \/ Js.toLower w = "textarea" ->
             Js.test_input_textarea tag = true).
  { intros tag m w Hsub Hw. unfold Js.test_input_textarea. apply orb_true_iff.
    assert (Hlow : substring m (String.length (Js.toLower w)) (Js.toLower tag)
                   = Js.toLower w).
    { rewrite toLower_length, <- toLower_substring, Hsub. reflexivity. }
    destruct Hw as [Hw|Hw]; rewrite Hw in Hlow; [left|right];
      apply includes_occurrence; try discriminate; exists m; exact Hlow. }
  intros tag. split.
  - split.
    + unfold Js.test_input_textarea. intros H. apply orb_true_iff in H.
      assert (Hfound : exists m pat,
                 (pat = "input" \/ pat = "textarea")
                 /\ substring m (String.length pat) (Js.toLower tag) = pat).
      { destruct H as [H|H]; apply includes_occurrence in H; try discriminate;
          destruct H as [m Hm]; exists m; eexists; (split; [|exact Hm]);
            [left|right]; reflexivity. }
      destruct Hfound as [m [pat [Hpat Hm]]].
      exists m, (substring m (String.length pat) tag).
      assert (Hlow : Js.toLower (substring m (String.length pat) tag) = pat).
      { rewrite toLower_substring. exact Hm. }
      split.
      * assert (Hlen : String.length (substring m (String.length pat) tag)
                       = String.length pat).
        { rewrite <- (toLower_length (substring m (String.length pat) tag)), Hlow.
          reflexivity. }
        rewrite Hlen. reflexivity.
      * rewrite Hlow. exact Hpat.
    + intros [m [w [Hsub Hw]]]. exact (Hback tag m w Hsub Hw).
  - intros pre w post Hw.
    apply (Hback _ (String.length pre) w); [|exact Hw].
    apply substring_inside_append.
Qed.

Lemma input_test_occurrence_witness :
  Js.test_input_textarea (String.append "X-" (String.append "TextArea" "-BOX")) = true.
Proof.
  apply (input_test_occurrence "DIV"). right. reflexivity.
Defined.

(** ** Entering the menu *)


